(** * arango-mcp-server: the startup configuration, the connection cache,
      the resource URI parser and the request handlers of [src/index.ts]

    The development follows the source file from top to bottom.

    - JavaScript strings are Rocq [string]s.  The string primitives the
      source uses ([startsWith], [slice], [split], [join], truthiness)
      work unit by unit and are written out below.
    - [string | undefined] is [option string]; the truthiness test of
      JavaScript is [truthy].
    - [Map<string, Database>] is a [gmap string Database]; a [Database]
      object carries the identity it got from [new Database], so that
      "the same instance" and "an equal configuration" are different
      statements.
    - Code that throws returns a [result].
    - The database server is an environment [Server] of answers.
    - The logging calls [debug] and [error] send messages to the
      protocol host; no result and no state depends on them, and they
      are left out. *)

From Stdlib Require Import Ascii String.
From stdpp Require Import gmap strings list fin_maps.

Open Scope string_scope.
#[local] Set Warnings "-clear-no-such-hyp".

(** ** Results of code that may throw *)

Inductive result (E A : Type) : Type :=
| Ok (a : A)
| Throw (e : E).

Arguments Ok {E A} a.
Arguments Throw {E A} e.

Definition is_ok {E A} (r : result E A) : bool :=
  match r with Ok _ => true | Throw _ => false end.

Definition bind {E A B} (r : result E A) (k : A -> result E B) : result E B :=
  match r with
  | Ok a => k a
  | Throw e => Throw e
  end.

Notation "'do' x <- r ; k" := (bind r (fun x => k))
  (at level 10, x name, r at level 100, k at level 200).

(** ** String primitives *)

Module Js.

(** [s.startsWith(searchString)] *)
Fixpoint startsWith (s searchString : string) {struct searchString} : bool :=
  match searchString with
  | EmptyString => true
  | String c rest =>
      match s with
      | EmptyString => false
      | String d s' => if decide (d = c) then startsWith s' rest else false
      end
  end.

(** [s.slice(start)] for a start index that is not negative *)
Fixpoint slice (s : string) (start : nat) : string :=
  match start, s with
  | O, _ => s
  | S _, EmptyString => EmptyString
  | S n, String _ s' => slice s' n
  end.

(** [s.split(sep)] for a separator of one unit.  The result is never
    empty: the empty string splits into one empty component. *)
Fixpoint split (s : string) (sep : ascii) : list string :=
  match s with
  | EmptyString => [EmptyString]
  | String c s' =>
      if decide (c = sep) then EmptyString :: split s' sep
      else match split s' sep with
           | [] => [String c EmptyString]
           | w :: ws => String c w :: ws
           end
  end.

(** [components.join(sep)] *)
Fixpoint join (components : list string) (sep : string) : string :=
  match components with
  | [] => EmptyString
  | [w] => w
  | w :: ws => w +:+ sep +:+ join ws sep
  end.

(** [s.includes(c)] for one unit [c] *)
Fixpoint includes (s : string) (c : ascii) : bool :=
  match s with
  | EmptyString => false
  | String d s' => if decide (d = c) then true else includes s' c
  end.

(** Truthiness of a [string | undefined]: [undefined] and the empty
    string are falsy, every other string is truthy. *)
Definition truthy (v : option string) : bool :=
  match v with
  | None => false
  | Some EmptyString => false
  | Some (String _ _) => true
  end.

(** [a && b] on values of type [string | undefined] *)
Definition and (a b : option string) : option string :=
  if truthy a then b else a.

End Js.

(** ** URI parsing for resources *)

Inductive ArangoDBURI : Type :=
| ArangoDBCollectionURI (databaseName collectionName : string)
| ArangoDBDocumentURI (databaseName collectionName documentId : string).

Record InvalidArangoDBURIError : Type :=
  { message : string }.

(** Reads a [string | undefined] at a place where the guards before it
    have left only strings. *)
Definition of_option (v : option string) : string := default EmptyString v.

Definition dquote : string := String "034"%char EmptyString.

Definition parseArangoDBURI (uri : string)
  : result InvalidArangoDBURIError ArangoDBURI :=
  if negb (Js.startsWith uri "arangodb:///") then
    Throw {| message := "URI must start with " +:+ dquote +:+ "arangodb:///" +:+ dquote |}
  else
    let path := Js.slice uri (String.length "arangodb:///") in
    let components := Js.split path "/" in
    if (length components <? 2)%nat || (3 <? length components)%nat then
      Throw {| message :=
        "URI must have 2 or 3 components: databaseName/collectionName[/documentId]" |}
    else
      let databaseName := components !! 0 in
      let collectionName := components !! 1 in
      let documentId := components !! 2 in
      if negb (Js.truthy databaseName) then
        Throw {| message := "Database name cannot be empty" |}
      else if negb (Js.truthy collectionName) then
        Throw {| message := "Collection name cannot be empty" |}
      else if (length components =? 2)%nat then
        Ok (ArangoDBCollectionURI (of_option databaseName) (of_option collectionName))
      else if negb (Js.truthy documentId) then
        Throw {| message := "Document ID cannot be empty" |}
      else
        Ok (ArangoDBDocumentURI (of_option databaseName) (of_option collectionName)
              (of_option documentId)).

(** The inverse direction: the URI of an address, by concatenation. *)
Definition components_of (a : ArangoDBURI) : list string :=
  match a with
  | ArangoDBCollectionURI d c => [d; c]
  | ArangoDBDocumentURI d c i => [d; c; i]
  end.

Definition uri_of (a : ArangoDBURI) : string :=
  "arangodb:///" +:+ Js.join (components_of a) "/".

(** The causes of rejection, with the message each one carries. *)
Inductive Cause : Type :=
| MissingPrefix
| WrongCount
| EmptyDatabase
| EmptyCollection
| EmptyDocumentId.

Definition message_of (c : Cause) : string :=
  match c with
  | MissingPrefix => "URI must start with " +:+ dquote +:+ "arangodb:///" +:+ dquote
  | WrongCount => "URI must have 2 or 3 components: databaseName/collectionName[/documentId]"
  | EmptyDatabase => "Database name cannot be empty"
  | EmptyCollection => "Collection name cannot be empty"
  | EmptyDocumentId => "Document ID cannot be empty"
  end.

(** ** Startup: flags and positional arguments *)

Definition newline : string := String "010"%char EmptyString.

Record Exit : Type :=
  { exitCode : Z;
    stderr : list string }.

Definition usage : string :=
  Js.join
    [ "Usage:";
      "  arangodb-mcp-server [--enable-write] <url> [username] [password]";
      "";
      "Arguments:";
      "  url       ArangoDB base URL (e.g. http://localhost:8529)";
      "  username  Optional username";
      "  password  Optional password";
      "";
      "Flags:";
      "  --enable-write  Expose and allow the readWriteQuery tool";
      "  --help          Show this help" ]
    newline.

(** [printUsageAndExit] never returns: [printed] is what the process
    wrote to the error stream before the call. *)
Definition printUsageAndExit {A} (printed : list string) (code : Z) : result Exit A :=
  Throw {| exitCode := code; stderr := printed ++ [usage] |}.

Definition KNOWN_FLAGS : gset string := {[ "--enable-write"; "--help" ]}.

(** The loop over [rawArgs], with the two accumulators [flags] and
    [positionals] it updates. *)
Fixpoint scanArgs (rawArgs : list string) (flags : gset string) (positionals : list string)
  : result Exit (gset string * list string) :=
  match rawArgs with
  | [] => Ok (flags, positionals)
  | arg :: rest =>
      if Js.startsWith arg "--" then
        if decide (arg ∈ KNOWN_FLAGS) then scanArgs rest ({[ arg ]} ∪ flags) positionals
        else printUsageAndExit ["Unknown flag: " +:+ arg] 1
      else scanArgs rest flags (positionals ++ [arg])
  end.

(** The arguments that are not flags, in the order given. *)
Definition positionals_of (rawArgs : list string) : list string :=
  List.filter (fun arg => negb (Js.startsWith arg "--")) rawArgs.

Record Auth : Type :=
  { auth_username : string;
    auth_password : string }.

Record Config : Type :=
  { enableWrite : bool;
    databaseUrl : string;
    username : option string;
    password : option string;
    auth : option Auth }.

(** [username && password ? { username, password } : undefined] *)
Definition make_auth (username password : option string) : option Auth :=
  if Js.truthy (Js.and username password) then
    Some {| auth_username := of_option username; auth_password := of_option password |}
  else None.

Definition configure (flags : gset string) (positionals : list string) : result Exit Config :=
  if decide ("--help" ∈ flags) then printUsageAndExit [] 0
  else
    let enableWrite := bool_decide ("--enable-write" ∈ flags) in
    if (length positionals <? 1)%nat then
      printUsageAndExit ["Please provide a database URL"] 1
    else
      let databaseUrl := of_option (positionals !! 0) in
      let username := if (1 <? length positionals)%nat then positionals !! 1 else None in
      let password := if (2 <? length positionals)%nat then positionals !! 2 else None in
      Ok {| enableWrite := enableWrite;
            databaseUrl := databaseUrl;
            username := username;
            password := password;
            auth := make_auth username password |}.

(** The top level of the module up to the creation of the server:
    [rawArgs] is [process.argv.slice(2)]. *)
Definition startup (rawArgs : list string) : result Exit Config :=
  do fp <- scanArgs rawArgs ∅ [];
  configure fp.1 fp.2.

(** ** Database objects and the connection cache *)

(** The argument of [new Database(...)]. *)
Record DatabaseConfig : Type :=
  { cfg_url : string;
    cfg_databaseName : option string;
    cfg_auth : option Auth }.

(** A [Database] object: [oid] is the identity of the instance, given
    by the [new] that made it. *)
Record Database : Type :=
  { oid : nat;
    config : DatabaseConfig }.

(** The mutable state of the process: the counter of allocated
    instances and the module-level [databaseConnections] map. *)
Record State : Type :=
  { allocated : nat;
    databaseConnections : gmap string Database }.

Definition newDatabase (c : DatabaseConfig) (st : State) : Database * State :=
  ({| oid := allocated st; config := c |},
   {| allocated := S (allocated st); databaseConnections := databaseConnections st |}).

(** [const db = new Database({ url: databaseUrl, auth })] and the empty
    [databaseConnections]. *)
Definition db (cfg : Config) : Database :=
  {| oid := 0;
     config := {| cfg_url := databaseUrl cfg; cfg_databaseName := None; cfg_auth := auth cfg |} |}.

Definition initial : State :=
  {| allocated := 1; databaseConnections := ∅ |}.

Definition getOrCreateDatabaseConnection (cfg : Config) (databaseName : string) (st : State)
  : Database * State :=
  match databaseConnections st !! databaseName with
  | Some dbConnector => (dbConnector, st)
  | None =>
      let '(dbConnector, st1) :=
        newDatabase {| cfg_url := databaseUrl cfg;
                       cfg_databaseName := Some databaseName;
                       cfg_auth := auth cfg |} st in
      (dbConnector,
       {| allocated := allocated st1;
          databaseConnections := <[databaseName := dbConnector]> (databaseConnections st1) |})
  end.

(** The connection that [new Database] makes for a name. *)
Definition fresh_connection (cfg : Config) (databaseName : string) (st : State) : Database :=
  {| oid := allocated st;
     config := {| cfg_url := databaseUrl cfg;
                  cfg_databaseName := Some databaseName;
                  cfg_auth := auth cfg |} |}.

(** The cache is consistent when every name is bound to a connection
    that was made for that name by an allocation that has happened. *)
Definition cache_ok (st : State) : Prop :=
  ∀ databaseName conn,
    databaseConnections st !! databaseName = Some conn →
    cfg_databaseName (config conn) = Some databaseName ∧ (oid conn < allocated st)%nat.

(** ** The database server *)

Unset Elimination Schemes.
Inductive Json : Type :=
| JNull
| JBool (b : bool)
| JNumber (z : Z)
| JString (s : string)
| JArray (items : list Json)
| JObject (fields : list (string * Json)).
Set Elimination Schemes.

Inductive Failure : Type :=
| ArangoError (errorMessage : string)
| ZodError (issue : string)
| MethodNotFound (tool : string).

(** A promise that has settled: the moment it settled and its outcome.
    The moments order the rejections that [Promise.all] sees. *)
Definition Promise (A : Type) : Type := (nat * result Failure A)%type.

Record CollectionInfo : Type :=
  { info_id : string;
    info_name : string }.

(** What the server answers.  Every field is indexed by the name of the
    database the connection is bound to.
    - [srv_databases]: [db.databases()], as the list of names;
    - [srv_collections]: the value of [COLLECTIONS()], or the failure of
      a query that uses it;
    - [srv_query]: [query] followed by [cursor.all()] for a query text;
    - [srv_count], [srv_documents], [srv_document]: the collection
      handle's [count()], the documents [FOR doc IN collection]
      enumerates, and [document(id)]. *)
Record Server : Type :=
  { srv_databases : result Failure (list string);
    srv_collections : string -> Promise (list CollectionInfo);
    srv_query : string -> string -> result Failure (list Json);
    srv_count : string -> string -> Promise Z;
    srv_documents : string -> string -> Promise (list Json);
    srv_document : string -> string -> string -> result Failure Json }.

(** A connection made without a database name talks to [_system]. *)
Definition bound_database (conn : Database) : string :=
  default "_system" (cfg_databaseName (config conn)).

Module Aql.

Definition STARTS_WITH (text prefix : string) : bool := Js.startsWith text prefix.

(** [FOR collection IN COLLECTIONS()
     FILTER !STARTS_WITH(collection.name, "_")
     RETURN { _id: collection._id, name: collection.name }] *)
Definition collections_query (all : list CollectionInfo) : list Json :=
  map (fun collection =>
         JObject [("_id", JString (info_id collection));
                  ("name", JString (info_name collection))])
      (List.filter (fun collection => negb (STARTS_WITH (info_name collection) "_")) all).

(** [FOR doc IN collection LIMIT 10 RETURN doc] *)
Definition sample_query (docs : list Json) : list Json := take 10 docs.

End Aql.

(** ** [Promise.all] *)

Section PromiseAll.
Context {A : Type}.

(** The rejection that settles first, the earlier position winning a
    tie. *)
Fixpoint first_rejection (ps : list (Promise A)) : option (nat * Failure) :=
  match ps with
  | [] => None
  | (t, Ok _) :: ps' => first_rejection ps'
  | (t, Throw e) :: ps' =>
      match first_rejection ps' with
      | Some (t', e') => if (t' <? t)%nat then Some (t', e') else Some (t, e)
      | None => Some (t, e)
      end
  end.

Fixpoint fulfilled (ps : list (Promise A)) : list A :=
  match ps with
  | [] => []
  | (_, Ok a) :: ps' => a :: fulfilled ps'
  | (_, Throw _) :: ps' => fulfilled ps'
  end.

Definition promise_all (ps : list (Promise A)) : result Failure (list A) :=
  match first_rejection ps with
  | Some (_, e) => Throw e
  | None => Ok (fulfilled ps)
  end.
End PromiseAll.

(** [Promise.all([p, q])] on two promises of different types. *)
Definition promise_all2 {A B} (p : Promise A) (q : Promise B) : result Failure (A * B) :=
  match p, q with
  | (_, Ok a), (_, Ok b) => Ok (a, b)
  | (_, Throw e), (_, Ok _) => Throw e
  | (_, Ok _), (_, Throw e) => Throw e
  | (t1, Throw e1), (t2, Throw e2) => if (t2 <? t1)%nat then Throw e2 else Throw e1
  end.

(** ** [getCollections] *)

Record CollectionType : Type :=
  { _id : string;
    name : string }.

Fixpoint get_field (key : string) (fields : list (string * Json)) : option Json :=
  match fields with
  | [] => None
  | (k, v) :: fields' => if decide (k = key) then Some v else get_field key fields'
  end.

(** [collectionSchema.parse]: a strict object with the string fields
    [_id] and [name] and no other key. *)
Definition collectionSchema_parse (value : Json) : result Failure CollectionType :=
  match value with
  | JObject fields =>
      match get_field "_id" fields, get_field "name" fields with
      | Some (JString i), Some (JString n) =>
          if forallb (fun kv => bool_decide (kv.1 = "_id" ∨ kv.1 = "name")) fields then
            Ok {| _id := i; name := n |}
          else Throw (ZodError "unrecognized_keys")
      | _, _ => Throw (ZodError "invalid_type")
      end
  | _ => Throw (ZodError "invalid_type")
  end.

(** The [for] loop that pushes every parsed row: the first row that
    fails to parse throws. *)
Fixpoint parse_all (rows : list Json) : result Failure (list CollectionType) :=
  match rows with
  | [] => Ok []
  | row :: rows' =>
      do collection <- collectionSchema_parse row;
      do rest <- parse_all rows';
      Ok (collection :: rest)
  end.

Definition getCollections (srv : Server) (conn : Database) : Promise (list CollectionType) :=
  let answer := srv_collections srv (bound_database conn) in
  (answer.1,
   do all <- answer.2;
   parse_all (Aql.collections_query all)).

(** ** Resource templates and tools *)

Record Resource : Type :=
  { res_uri : string;
    res_mimeType : string;
    res_name : string;
    res_description : string }.

(** What a callback returns.  Where the source builds a text with
    [JSON.stringify(value, null, 2)], the response holds [value]. *)
Inductive Response : Type :=
| Resources (resources : list Resource)
| Contents (uri mimeType : string) (value : Json)
| Content (value : Json).

(** A callback reads the server, may update the cache, and returns or
    throws. *)
Definition Callback : Type := Server -> State -> result Failure Response * State.

(** [userDatabases.map(async (database) => ...)]: every call runs up to
    its first [await] before the next one starts, so the connections
    are looked up in the order of the list. *)
Fixpoint map_databases (cfg : Config) (srv : Server) (userDatabases : list string) (st : State)
  : list (Promise (string * list CollectionType)) * State :=
  match userDatabases with
  | [] => ([], st)
  | database :: rest =>
      let '(dbConnection, st1) := getOrCreateDatabaseConnection cfg database st in
      let fetched := getCollections srv dbConnection in
      let promise := (fetched.1, do collections <- fetched.2; Ok (database, collections)) in
      let '(promises, st2) := map_databases cfg srv rest st1 in
      (promise :: promises, st2)
  end.

Definition collection_resource (database : string) (collection : CollectionType) : Resource :=
  {| res_uri := "arangodb:///" +:+ database +:+ "/" +:+ name collection;
     res_mimeType := "application/json";
     res_name := database +:+ "/" +:+ name collection;
     res_description :=
       "Collection " +:+ dquote +:+ name collection +:+ dquote
       +:+ " in database " +:+ dquote +:+ database +:+ dquote |}.

(** The [list] callback of the collection resource template. *)
Definition listCollectionResources (cfg : Config) : Callback := fun srv st =>
  match srv_databases srv with
  | Throw e => (Throw e, st)
  | Ok allDatabases =>
      let userDatabases := List.filter (fun d => negb (bool_decide (d = "_system"))) allDatabases in
      let '(promises, st1) := map_databases cfg srv userDatabases st in
      (do collectionsPerDb <- promise_all promises;
       Ok (Resources
             (flat_map (fun dc => map (collection_resource dc.1) dc.2) collectionsPerDb)),
       st1)
  end.

(** The read callback of the collection resource template. *)
Definition readCollectionResource (cfg : Config) (href database collection : string)
  : Callback := fun srv st =>
  let '(dbConnection, st1) := getOrCreateDatabaseConnection cfg database st in
  let bound := bound_database dbConnection in
  (do both <- promise_all2 (srv_count srv bound collection) (srv_documents srv bound collection);
   let sampleDocs := Aql.sample_query both.2 in
   Ok (Contents href "application/json"
         (JObject [("collection", JString collection);
                   ("database", JString database);
                   ("documentCount", JNumber both.1);
                   ("sampleDocuments", JArray sampleDocs)])),
   st1).

(** The read callback of the document resource template. *)
Definition readDocumentResource (cfg : Config) (href database collection documentID : string)
  : Callback := fun srv st =>
  let '(dbConnection, st1) := getOrCreateDatabaseConnection cfg database st in
  (match srv_document srv (bound_database dbConnection) collection documentID with
   | Ok document => Ok (Contents href "application/json" document)
   | Throw err => Throw err
   end,
   st1).

(** The arguments of a tool call, after the input schema accepted
    them; a tool reads the fields its schema declares. *)
Record ToolArguments : Type :=
  { arg_databaseName : string;
    arg_aql : string }.

Definition runQuery (cfg : Config) (args : ToolArguments) : Callback := fun srv st =>
  let '(dbConnector, st1) := getOrCreateDatabaseConnection cfg (arg_databaseName args) st in
  (do result <- srv_query srv (bound_database dbConnector) (arg_aql args);
   Ok (Content (JArray result)),
   st1).

Definition readQuery := runQuery.
Definition readWriteQuery := runQuery.

Definition listDatabases (cfg : Config) (args : ToolArguments) : Callback := fun srv st =>
  (do allDatabases <- srv_databases srv;
   Ok (Content (JArray (map (fun database => JObject [("name", JString database)])
                          allDatabases))),
   st).

Definition listCollections (cfg : Config) (args : ToolArguments) : Callback := fun srv st =>
  let '(dbConnector, st1) := getOrCreateDatabaseConnection cfg (arg_databaseName args) st in
  (do allCollections <- (getCollections srv dbConnector).2;
   Ok (Content (JArray (map (fun collection => JObject [("name", JString (name collection))])
                          allCollections))),
   st1).

(** The [server.registerTool] calls, in the order of the source. *)
Definition registeredTools (cfg : Config) : list (string * (ToolArguments -> Callback)) :=
  [("readQuery", readQuery cfg)]
  ++ (if enableWrite cfg then [("readWriteQuery", readWriteQuery cfg)] else [])
  ++ [("listDatabases", listDatabases cfg);
      ("listCollections", listCollections cfg)].

Definition toolNames (cfg : Config) : list string := (registeredTools cfg).*1.

Fixpoint find_tool (tool : string) (tools : list (string * (ToolArguments -> Callback)))
  : option (ToolArguments -> Callback) :=
  match tools with
  | [] => None
  | (k, callback) :: tools' => if decide (k = tool) then Some callback else find_tool tool tools'
  end.

(** ** Requests *)

Inductive Request : Type :=
| ListResources
| ReadCollection (href database collection : string)
| ReadDocument (href database collection documentID : string)
| CallTool (tool : string) (args : ToolArguments).

(** The host hands a request to the callback registered for it; a tool
    that is not registered is unknown to the host. *)
Definition handle (cfg : Config) (request : Request) : Callback :=
  match request with
  | ListResources => listCollectionResources cfg
  | ReadCollection href database collection =>
      readCollectionResource cfg href database collection
  | ReadDocument href database collection documentID =>
      readDocumentResource cfg href database collection documentID
  | CallTool tool args =>
      match find_tool tool (registeredTools cfg) with
      | Some callback => callback args
      | None => fun _ st => (Throw (MethodNotFound tool), st)
      end
  end.

(** The state after a sequence of requests, each answered by the
    server as it is at that moment and run to its end before the next
    one starts. *)
Fixpoint serve (cfg : Config) (requests : list (Server * Request)) (st : State) : State :=
  match requests with
  | [] => st
  | (srv, request) :: rest => serve cfg rest (handle cfg request srv st).2
  end.

(** Callbacks of requests in flight interleave at their [await]s, but a
    call of [getOrCreateDatabaseConnection] never suspends, and nothing
    else touches the cache: whatever the interleaving, the cache goes
    through a sequence of lookups.  [lookups] is the state after such a
    sequence, and [lookups_of] the sequence of one request. *)
Fixpoint lookups (cfg : Config) (databaseNames : list string) (st : State) : State :=
  match databaseNames with
  | [] => st
  | databaseName :: rest =>
      lookups cfg rest (getOrCreateDatabaseConnection cfg databaseName st).2
  end.

Definition lookups_of (cfg : Config) (request : Request) (srv : Server) : list string :=
  match request with
  | ListResources =>
      match srv_databases srv with
      | Ok allDatabases =>
          List.filter (fun d => negb (bool_decide (d = "_system"))) allDatabases
      | Throw _ => []
      end
  | ReadCollection _ database _ => [database]
  | ReadDocument _ database _ _ => [database]
  | CallTool tool args =>
      if bool_decide (tool ∈ toolNames cfg ∧ tool ≠ "listDatabases")
      then [arg_databaseName args] else []
  end.

(** ** Notions used to state further properties *)

(** The arguments that look like flags and are not known, in order. *)
Definition unknown_flags (rawArgs : list string) : list string :=
  List.filter (fun arg => Js.startsWith arg "--" && negb (bool_decide (arg ∈ KNOWN_FLAGS)))
    rawArgs.

(** The lookups of a sequence of requests, in order. *)
Definition requested (cfg : Config) (requests : list (Server * Request)) : list string :=
  flat_map (fun sr => lookups_of cfg sr.2 sr.1) requests.

(** What the cache of a running server looks like: every allocation
    but the root connection is in the cache, every name is bound to a
    connection configured for that name with the URL and the credentials
    of the startup, and no two names share an instance. *)
Definition cache_inv (cfg : Config) (st : State) : Prop :=
  allocated st = S (size (databaseConnections st))
  ∧ (∀ databaseName conn,
       databaseConnections st !! databaseName = Some conn →
       config conn = {| cfg_url := databaseUrl cfg;
                        cfg_databaseName := Some databaseName;
                        cfg_auth := auth cfg |}
       ∧ (1 ≤ oid conn < allocated st)%nat)
  ∧ (∀ n1 n2 c1 c2,
       databaseConnections st !! n1 = Some c1 →
       databaseConnections st !! n2 = Some c2 →
       oid c1 = oid c2 → n1 = n2).

(** The user databases of a list of database names. *)
Definition user_databases (allDatabases : list string) : list string :=
  List.filter (fun d => negb (bool_decide (d = "_system"))) allDatabases.

(** The collections [getCollections] keeps. *)
Definition visible (all : list CollectionInfo) : list CollectionType :=
  map (fun collection => {| _id := info_id collection; name := info_name collection |})
    (List.filter (fun collection => negb (Aql.STARTS_WITH (info_name collection) "_")) all).

(** ** A sample configuration and a sample server

    Two databases besides [_system]: [shop] holds the collections
    [users] and [_internal], and every query sent to [logs] fails. *)

Definition sample_config : Config :=
  {| enableWrite := false; databaseUrl := "http://localhost:8529";
     username := None; password := None; auth := None |}.

Definition sample_server : Server :=
  {| srv_databases := Ok ["_system"; "shop"; "logs"];
     srv_collections := fun database =>
       if decide (database = "logs") then (1, Throw (ArangoError "database not found"))
       else (2, Ok [ {| info_id := "101"; info_name := "users" |};
                     {| info_id := "102"; info_name := "_internal" |} ]);
     srv_query := fun _ _ => Ok [];
     srv_count := fun _ _ => (1, Ok 0%Z);
     srv_documents := fun _ _ => (1, Ok []);
     srv_document := fun _ _ _ => Throw (ArangoError "document not found") |}.

(** The same server once [logs] has been dropped. *)
Definition sample_server_after_drop : Server :=
  {| srv_databases := Ok ["_system"; "shop"];
     srv_collections := srv_collections sample_server;
     srv_query := srv_query sample_server;
     srv_count := srv_count sample_server;
     srv_documents := srv_documents sample_server;
     srv_document := srv_document sample_server |}.

(** * Properties *)

(** ** Strings *)

#[local] Arguments append !s1 s2 : simpl nomatch.

Section StringFacts.
Implicit Types (s w p : string) (sep : ascii).

Lemma app_assoc_string s w p : (s +:+ w) +:+ p = s +:+ (w +:+ p).
Proof. induction s as [|c s IH]; simpl; [done | by rewrite IH]. Qed.

Lemma startsWith_app p s : Js.startsWith (p +:+ s) p = true.
Proof. induction p as [|c p IH]; simpl; [done | by rewrite decide_True]. Qed.

Lemma slice_app p s : Js.slice (p +:+ s) (String.length p) = s.
Proof. induction p as [|c p IH]; simpl; [by destruct s | done]. Qed.

Lemma startsWith_slice s p :
  Js.startsWith s p = true → s = p +:+ Js.slice s (String.length p).
Proof.
  revert s. induction p as [|c p IH]; intros s H; simpl in *.
  - by destruct s.
  - destruct s as [|d s]; [done |]. case_decide; [subst | done].
    f_equal. by apply IH.
Qed.

Lemma split_not_nil s sep : Js.split s sep ≠ [].
Proof.
  destruct s as [|c s]; simpl; [done |].
  case_decide; [done |]. by destruct (Js.split s sep).
Qed.

Lemma join_cons w ws sep :
  ws ≠ [] → Js.join (w :: ws) (String sep "") = w +:+ String sep (Js.join ws (String sep "")).
Proof. by destruct ws. Qed.

(** Joining what [split] produced gives the string back. *)
Lemma join_split s sep : Js.join (Js.split s sep) (String sep "") = s.
Proof.
  induction s as [|c s IH]; [done |]. cbn [Js.split].
  case_decide as Hc.
  - subst c. rewrite join_cons by apply split_not_nil. simpl. by rewrite IH.
  - pose proof (split_not_nil s sep) as Hne.
    destruct (Js.split s sep) as [|w ws]; [done |].
    destruct ws as [|w' ws]; simpl in *; by rewrite <- IH.
Qed.

Lemma split_without_sep w sep : Js.includes w sep = false → Js.split w sep = [w].
Proof.
  induction w as [|c w IH]; simpl; [done |].
  case_decide; [done |]. intros Hw. by rewrite IH.
Qed.

Lemma split_app_sep w s sep :
  Js.includes w sep = false → Js.split (w +:+ String sep s) sep = w :: Js.split s sep.
Proof.
  induction w as [|c w IH]; simpl.
  - intros _. by rewrite decide_True.
  - case_decide; [done |]. intros Hw. by rewrite IH.
Qed.

(** Splitting a join of separator-free components gives them back. *)
Lemma split_join ws sep :
  ws ≠ [] → Forall (λ w, Js.includes w sep = false) ws →
  Js.split (Js.join ws (String sep "")) sep = ws.
Proof.
  induction ws as [|w ws IH]; [done |]. intros _ Hall.
  apply Forall_cons in Hall as [Hw Hws].
  destruct ws as [|w' ws]; [by apply split_without_sep |].
  rewrite join_cons by done. rewrite split_app_sep by done.
  f_equal. by apply IH.
Qed.

Lemma truthy_Some s : Js.truthy (Some s) = true ↔ s ≠ "".
Proof. destruct s; simpl; split; congruence. Qed.

Lemma truthy_false (v : option string) : Js.truthy v = false ↔ v = None ∨ v = Some "".
Proof.
  destruct v as [[|c s]|]; simpl; (split; [intros ? | intros [?|?]]); auto; congruence.
Qed.
End StringFacts.

(** ** The URI parser *)

(** The parser, case by case on the components it found. *)
Lemma parse_prefixed (path : string) :
  parseArangoDBURI ("arangodb:///" +:+ path) =
  match Js.split path "/" with
  | [d; c] =>
      if negb (Js.truthy (Some d)) then Throw {| message := message_of EmptyDatabase |}
      else if negb (Js.truthy (Some c)) then Throw {| message := message_of EmptyCollection |}
      else Ok (ArangoDBCollectionURI d c)
  | [d; c; i] =>
      if negb (Js.truthy (Some d)) then Throw {| message := message_of EmptyDatabase |}
      else if negb (Js.truthy (Some c)) then Throw {| message := message_of EmptyCollection |}
      else if negb (Js.truthy (Some i)) then Throw {| message := message_of EmptyDocumentId |}
      else Ok (ArangoDBDocumentURI d c i)
  | _ => Throw {| message := message_of WrongCount |}
  end.
Proof.
  unfold parseArangoDBURI.
  rewrite startsWith_app, (slice_app "arangodb:///"). cbn [negb].
  by destruct (Js.split path "/") as [|d [|c [|i [|x xs]]]].
Qed.

Lemma parse_unprefixed (uri : string) :
  Js.startsWith uri "arangodb:///" = false →
  parseArangoDBURI uri = Throw {| message := message_of MissingPrefix |}.
Proof. unfold parseArangoDBURI. by intros ->. Qed.

Lemma message_of_inj (c1 c2 : Cause) : message_of c1 = message_of c2 → c1 = c2.
Proof. destruct c1, c2; intros H; try reflexivity; by vm_compute in H. Qed.

Lemma parse_cases (uri : string) :
  parseArangoDBURI uri =
  if Js.startsWith uri "arangodb:///" then
    match Js.split (Js.slice uri (String.length "arangodb:///")) "/" with
    | [d; c] =>
        if negb (Js.truthy (Some d)) then Throw {| message := message_of EmptyDatabase |}
        else if negb (Js.truthy (Some c)) then Throw {| message := message_of EmptyCollection |}
        else Ok (ArangoDBCollectionURI d c)
    | [d; c; i] =>
        if negb (Js.truthy (Some d)) then Throw {| message := message_of EmptyDatabase |}
        else if negb (Js.truthy (Some c)) then Throw {| message := message_of EmptyCollection |}
        else if negb (Js.truthy (Some i)) then Throw {| message := message_of EmptyDocumentId |}
        else Ok (ArangoDBDocumentURI d c i)
    | _ => Throw {| message := message_of WrongCount |}
    end
  else Throw {| message := message_of MissingPrefix |}.
Proof.
  destruct (Js.startsWith uri "arangodb:///") eqn:Hp.
  - rewrite (startsWith_slice _ _ Hp) at 1. apply parse_prefixed.
  - by apply parse_unprefixed.
Qed.

(** An accepted URI is the prefix followed by its components joined
    with the separator. *)
Lemma parse_Ok_uri_of (uri : string) (a : ArangoDBURI) :
  parseArangoDBURI uri = Ok a → uri_of a = uri.
Proof.
  rewrite parse_cases. destruct (Js.startsWith uri "arangodb:///") eqn:Hp; [| done].
  intros Ha. rewrite (startsWith_slice _ _ Hp). unfold uri_of. f_equal.
  rewrite <- (join_split (Js.slice uri _) "/").
  destruct (Js.split _ "/") as [|d [|c [|i [|x xs]]]]; try done.
  - destruct d, c; simpl in Ha; by simplify_eq.
  - destruct d, c, i; simpl in Ha; by simplify_eq.
Qed.

(** C2, as the claim states it, fails where a component is empty: the
    empty string contains no separator, and the parser rejects the URI
    built from an empty database name. *)
Lemma parse_roundtrip_fails_on_empty_database :
  Js.includes "" "/" = false ∧ Js.includes "b" "/" = false
  ∧ parseArangoDBURI ("arangodb:///" +:+ "" +:+ "/" +:+ "b")
    = Throw {| message := "Database name cannot be empty" |}
  ∧ parseArangoDBURI ("arangodb:///" +:+ "" +:+ "/" +:+ "b")
    ≠ Ok (ArangoDBCollectionURI "" "b").
Proof. repeat split; done. Qed.

(** C2 (amended): for all non-empty strings [d] and [c] without the
    separator, parsing the prefix followed by [d], the separator and [c]
    returns the collection address of [d] and [c]; and for every
    non-empty [i] without the separator, the form with three components
    returns the document address of [d], [c] and [i]. *)
Theorem parse_roundtrip (d c i : string) :
  d ≠ "" → c ≠ "" → Js.includes d "/" = false → Js.includes c "/" = false →
  parseArangoDBURI ("arangodb:///" +:+ d +:+ "/" +:+ c) = Ok (ArangoDBCollectionURI d c)
  ∧ (i ≠ "" → Js.includes i "/" = false →
     parseArangoDBURI ("arangodb:///" +:+ d +:+ "/" +:+ c +:+ "/" +:+ i)
     = Ok (ArangoDBDocumentURI d c i)).
Proof.
  intros Hd Hc Hds Hcs.
  apply truthy_Some in Hd, Hc.
  assert (Hsep : ∀ s, "/" +:+ s = String "/" s) by done.
  split; [| intros Hi His; apply truthy_Some in Hi]; rewrite parse_prefixed, !Hsep.
  - rewrite split_app_sep, split_without_sep by done. by rewrite Hd, Hc.
  - rewrite !split_app_sep, split_without_sep by done. by rewrite Hd, Hc, Hi.
Qed.

Lemma parse_roundtrip_witness :
  parseArangoDBURI ("arangodb:///" +:+ "mydb" +:+ "/" +:+ "items")
  = Ok (ArangoDBCollectionURI "mydb" "items")
  ∧ parseArangoDBURI ("arangodb:///" +:+ "mydb" +:+ "/" +:+ "items" +:+ "/" +:+ "42")
    = Ok (ArangoDBDocumentURI "mydb" "items" "42").
Proof.
  destruct (parse_roundtrip "mydb" "items" "42") as [Hc Hd];
    [discriminate | discriminate | reflexivity | reflexivity |].
  split; [exact Hc | apply Hd; [discriminate | reflexivity]].
Defined.

Ltac settle_causes Hmsg :=
  repeat split;
  try exact message_of_inj;
  try (intros ? [= <-];
       first [ by exists MissingPrefix | by exists WrongCount | by exists EmptyDatabase
             | by exists EmptyCollection | by exists EmptyDocumentId ]);
  try (let H := fresh in intros H; apply Hmsg in H; discriminate);
  try (simpl; naive_solver lia).

(** C3: the parser throws exactly when the prefix is missing, or the
    remainder does not split into 2 or 3 components, or the database
    name, the collection name or the document id is empty.  Each cause
    has a message of its own, and the message thrown is that of the
    first cause in the order prefix, count, database, collection,
    document id.  On every other input the parser returns an address. *)
Theorem parse_rejection (uri : string) :
  let hasPrefix := Js.startsWith uri "arangodb:///" = true in
  let components := Js.split (Js.slice uri (String.length "arangodb:///")) "/" in
  let count := length components in
  let empty k := components !! k = Some "" in
  let throws c := parseArangoDBURI uri = Throw {| message := message_of c |} in
  (throws MissingPrefix ↔ ¬ hasPrefix)
  ∧ (throws WrongCount ↔ hasPrefix ∧ count ≠ 2 ∧ count ≠ 3)
  ∧ (throws EmptyDatabase ↔ hasPrefix ∧ (count = 2 ∨ count = 3) ∧ empty 0)
  ∧ (throws EmptyCollection ↔ hasPrefix ∧ (count = 2 ∨ count = 3) ∧ ¬ empty 0 ∧ empty 1)
  ∧ (throws EmptyDocumentId ↔
       hasPrefix ∧ (count = 2 ∨ count = 3) ∧ ¬ empty 0 ∧ ¬ empty 1 ∧ empty 2)
  ∧ ((∃ e, parseArangoDBURI uri = Throw e) ↔
       ¬ hasPrefix ∨ (count ≠ 2 ∧ count ≠ 3) ∨ empty 0 ∨ empty 1 ∨ empty 2)
  ∧ ((∃ a, parseArangoDBURI uri = Ok a) ↔
       hasPrefix ∧ (count = 2 ∨ count = 3) ∧ ¬ empty 0 ∧ ¬ empty 1 ∧ ¬ empty 2)
  ∧ (∀ e, parseArangoDBURI uri = Throw e → ∃ c, e = {| message := message_of c |})
  ∧ (∀ c1 c2, message_of c1 = message_of c2 → c1 = c2).
Proof.
  intros hasPrefix components count empty throws.
  assert (Hmsg : ∀ c1 c2,
             @Throw InvalidArangoDBURIError ArangoDBURI {| message := message_of c1 |}
             = Throw {| message := message_of c2 |} → c1 = c2).
  { intros c1 c2 [= H]. by apply message_of_inj. }
  subst hasPrefix components count empty throws. cbv zeta.
  rewrite parse_cases.
  destruct (Js.startsWith uri "arangodb:///"); [| settle_causes Hmsg].
  destruct (Js.split _ "/") as [|d [|c [|i [|x xs]]]];
    [settle_causes Hmsg | settle_causes Hmsg | | | settle_causes Hmsg].
  - destruct d, c; cbn; settle_causes Hmsg.
  - destruct d, c, i; cbn; settle_causes Hmsg.
Qed.

(** C10: on every URI the parser accepts, the prefix followed by the
    returned components joined with the separator is the URI itself;
    hence two accepted URIs with the same address are the same URI. *)
Theorem parse_reverse_roundtrip (uri : string) (a : ArangoDBURI) :
  parseArangoDBURI uri = Ok a →
  uri_of a = uri
  ∧ "arangodb:///" +:+ Js.join (components_of a) "/" = uri
  ∧ ∀ uri', parseArangoDBURI uri' = parseArangoDBURI uri → uri' = uri.
Proof.
  intros Ha. pose proof (parse_Ok_uri_of _ _ Ha) as Hu.
  repeat split; [done .. |].
  intros uri' Heq. rewrite Ha in Heq. apply parse_Ok_uri_of in Heq. congruence.
Qed.

Lemma parse_reverse_roundtrip_witness :
  uri_of (ArangoDBDocumentURI "mydb" "items" "42") = "arangodb:///mydb/items/42"
  ∧ "arangodb:///" +:+ Js.join ["mydb"; "items"; "42"] "/" = "arangodb:///mydb/items/42"
  ∧ ∀ uri', parseArangoDBURI uri' = parseArangoDBURI "arangodb:///mydb/items/42" →
            uri' = "arangodb:///mydb/items/42".
Proof.
  apply (parse_reverse_roundtrip "arangodb:///mydb/items/42"
           (ArangoDBDocumentURI "mydb" "items" "42")).
  reflexivity.
Defined.

(** ** Startup *)

Section Startup.
Implicit Types (rawArgs positionals : list string) (flags : gset string) (cfg : Config).

Lemma scanArgs_Ok rawArgs : ∀ flags positionals flags' positionals',
  scanArgs rawArgs flags positionals = Ok (flags', positionals') →
  (∀ f, f ∈ flags' ↔ f ∈ flags ∨ (f ∈ rawArgs ∧ Js.startsWith f "--" = true))
  ∧ positionals' = (positionals ++ positionals_of rawArgs)%list.
Proof.
  induction rawArgs as [|arg rest IH]; intros flags positionals flags' positionals' H.
  - injection H as <- <-. split; [| by rewrite app_nil_r].
    intros f. rewrite elem_of_nil. naive_solver.
  - cbn [scanArgs] in H. unfold positionals_of. cbn [List.filter].
    destruct (Js.startsWith arg "--") eqn:Hflag; cbn [negb].
    + case_decide as Hknown; [| done].
      apply IH in H as [Hf ->]. split; [| done].
      intros f. rewrite Hf, elem_of_union, elem_of_singleton, elem_of_cons.
      naive_solver.
    + apply IH in H as [Hf ->]. split; [| rewrite <- app_assoc; reflexivity].
      intros f. rewrite Hf, elem_of_cons.
      split; [tauto |]. intros [?|[[->|?] ?]]; [tauto | congruence | tauto].
Qed.

Lemma lookup_guarded positionals k :
  (if (k <? length positionals)%nat then positionals !! k else None) = positionals !! k.
Proof.
  destruct (Nat.ltb_spec k (length positionals)); [done |].
  symmetry. by apply lookup_ge_None.
Qed.

(** What a startup that reaches the server has computed. *)
Lemma startup_Ok rawArgs cfg :
  startup rawArgs = Ok cfg →
  enableWrite cfg = bool_decide ("--enable-write" ∈ rawArgs)
  ∧ positionals_of rawArgs ≠ []
  ∧ databaseUrl cfg = of_option (positionals_of rawArgs !! 0)
  ∧ username cfg = positionals_of rawArgs !! 1
  ∧ password cfg = positionals_of rawArgs !! 2
  ∧ auth cfg = make_auth (positionals_of rawArgs !! 1) (positionals_of rawArgs !! 2).
Proof.
  unfold startup.
  destruct (scanArgs rawArgs ∅ []) as [[flags positionals]|e] eqn:Hscan; [| done].
  apply scanArgs_Ok in Hscan as [Hflags ->]. cbn [bind fst snd app].
  unfold configure. case_decide as Hhelp; [done |]. rewrite !lookup_guarded.
  destruct (positionals_of rawArgs) as [|databaseUrl positionals]; [done |].
  cbn [length Nat.ltb Nat.leb]. intros [= <-]. cbn.
  repeat split; try done.
  apply bool_decide_ext. rewrite Hflags. set_solver.
Qed.

Lemma make_auth_Some (u p : option string) (a : Auth) :
  make_auth u p = Some a ↔
  ∃ u' p', u = Some u' ∧ p = Some p' ∧ u' ≠ "" ∧ p' ≠ ""
           ∧ a = {| auth_username := u'; auth_password := p' |}.
Proof.
  unfold make_auth, Js.and.
  destruct u as [[|c u]|], p as [[|c' p]|]; cbn; split;
    try done; try naive_solver.
Qed.

Lemma make_auth_None (u p : option string) :
  make_auth u p = None ↔ Js.truthy u = false ∨ Js.truthy p = false.
Proof.
  unfold make_auth, Js.and.
  destruct u as [[|c u]|], p as [[|c' p]|]; cbn; naive_solver.
Qed.
End Startup.

(** ** The connection cache *)

Section Cache.
Variable cfg : Config.
Implicit Types (databaseName : string) (st : State) (conn : Database).

Lemma getOrCreate_cached databaseName st conn :
  databaseConnections st !! databaseName = Some conn →
  getOrCreateDatabaseConnection cfg databaseName st = (conn, st).
Proof. unfold getOrCreateDatabaseConnection. by intros ->. Qed.

Lemma getOrCreate_fresh databaseName st :
  databaseConnections st !! databaseName = None →
  getOrCreateDatabaseConnection cfg databaseName st
  = (fresh_connection cfg databaseName st,
     {| allocated := S (allocated st);
        databaseConnections :=
          <[databaseName := fresh_connection cfg databaseName st]> (databaseConnections st) |}).
Proof. unfold getOrCreateDatabaseConnection. by intros ->. Qed.

(** After a lookup the name is bound to the connection returned. *)
Lemma getOrCreate_bound databaseName st :
  databaseConnections (getOrCreateDatabaseConnection cfg databaseName st).2 !! databaseName
  = Some (getOrCreateDatabaseConnection cfg databaseName st).1.
Proof.
  destruct (databaseConnections st !! databaseName) as [conn|] eqn:Hl.
  - by rewrite (getOrCreate_cached _ _ _ Hl).
  - rewrite (getOrCreate_fresh _ _ Hl). cbn. apply lookup_insert_eq.
Qed.

(** A lookup never changes what a bound name is bound to. *)
Lemma getOrCreate_preserves databaseName st other conn :
  databaseConnections st !! other = Some conn →
  databaseConnections (getOrCreateDatabaseConnection cfg databaseName st).2 !! other
  = Some conn.
Proof.
  intros Hother.
  destruct (databaseConnections st !! databaseName) as [conn'|] eqn:Hl.
  - by rewrite (getOrCreate_cached _ _ _ Hl).
  - rewrite (getOrCreate_fresh _ _ Hl). cbn.
    rewrite lookup_insert_ne; [done | congruence].
Qed.
End Cache.

(** ** The write gate and the credentials *)

(** C4: on every startup that reaches the registration of the tools,
    [readWriteQuery] is among the registered tools exactly when
    [--enable-write] is among the arguments, and [readQuery] is
    registered either way.  Without the flag a call of [readWriteQuery]
    finds no tool and leaves the state as it was. *)
Theorem write_gate (rawArgs : list string) (cfg : Config) :
  startup rawArgs = Ok cfg →
  ("readWriteQuery" ∈ toolNames cfg ↔ "--enable-write" ∈ rawArgs)
  ∧ "readQuery" ∈ toolNames cfg
  ∧ ("--enable-write" ∉ rawArgs →
     ∀ args srv st,
       handle cfg (CallTool "readWriteQuery" args) srv st
       = (Throw (MethodNotFound "readWriteQuery"), st)).
Proof.
  intros Hstart. apply startup_Ok in Hstart as (Hwrite & _).
  unfold handle, toolNames, registeredTools. rewrite Hwrite.
  case_bool_decide as Hflag; cbn.
  - split; [| split].
    + split; intros _; [done | set_solver].
    + set_solver.
    + done.
  - split; [| split].
    + split; [| done]. intros Hin. exfalso.
      repeat (apply elem_of_cons in Hin as [Hin|Hin]; [discriminate |]).
      by apply elem_of_nil in Hin.
    + set_solver.
    + done.
Qed.

Lemma write_gate_witness :
  startup ["--enable-write"; "http://localhost:8529"]
  = Ok {| enableWrite := true; databaseUrl := "http://localhost:8529";
          username := None; password := None; auth := None |}
  ∧ toolNames {| enableWrite := true; databaseUrl := "http://localhost:8529";
                 username := None; password := None; auth := None |}
    = ["readQuery"; "readWriteQuery"; "listDatabases"; "listCollections"]
  ∧ "readQuery" ∈ toolNames {| enableWrite := true; databaseUrl := "http://localhost:8529";
                               username := None; password := None; auth := None |}.
Proof.
  split; [vm_compute; reflexivity |]. split; [reflexivity |].
  apply (write_gate ["--enable-write"; "http://localhost:8529"]).
  vm_compute; reflexivity.
Defined.

(** C6: on every startup that reaches the server, credentials are set
    only if a username and a password are both given.  With a username
    and no password the root connection and every connection the cache
    makes carry no credentials, and they are the connections of a
    startup with the same URL and neither username nor password. *)
Theorem credential_pairing (rawArgs : list string) (cfg : Config) :
  startup rawArgs = Ok cfg →
  (∀ a, auth cfg = Some a →
        positionals_of rawArgs !! 1 = Some (auth_username a)
        ∧ positionals_of rawArgs !! 2 = Some (auth_password a))
  ∧ (∀ url user, positionals_of rawArgs = [url; user] →
       auth cfg = None
       ∧ config (db cfg)
         = {| cfg_url := url; cfg_databaseName := None; cfg_auth := None |}
       ∧ (∀ databaseName st,
            config (fresh_connection cfg databaseName st)
            = {| cfg_url := url; cfg_databaseName := Some databaseName; cfg_auth := None |})
       ∧ (∀ rawArgs' cfg',
            startup rawArgs' = Ok cfg' → positionals_of rawArgs' = [url] →
            auth cfg' = None
            ∧ db cfg' = db cfg
            ∧ ∀ databaseName st,
                getOrCreateDatabaseConnection cfg' databaseName st
                = getOrCreateDatabaseConnection cfg databaseName st)).
Proof.
  intros Hstart. apply startup_Ok in Hstart as (_ & _ & Hurl & _ & _ & Hauth).
  split.
  - intros a Ha. rewrite Hauth in Ha.
    apply make_auth_Some in Ha as (u & p & -> & -> & _ & _ & ->). done.
  - intros url user Hpos. rewrite Hpos in Hurl, Hauth. cbn in Hurl, Hauth.
    assert (Hnone : auth cfg = None).
    { rewrite Hauth. apply make_auth_None. by right. }
    unfold db, fresh_connection. rewrite Hnone, Hurl. cbn.
    do 3 (split; [done |]).
    intros rawArgs' cfg' Hstart' Hpos'.
    apply startup_Ok in Hstart' as (_ & _ & Hurl' & _ & _ & Hauth').
    rewrite Hpos' in Hurl', Hauth'. cbn in Hurl', Hauth'.
    split; [done |]. split; [by rewrite Hurl', Hauth' |].
    intros databaseName st. unfold getOrCreateDatabaseConnection, newDatabase.
    by rewrite Hurl', Hauth', Hurl, Hnone.
Qed.

Lemma credential_pairing_witness :
  startup ["http://localhost:8529"; "root"]
  = Ok {| enableWrite := false; databaseUrl := "http://localhost:8529";
          username := Some "root"; password := None; auth := None |}
  ∧ config (db {| enableWrite := false; databaseUrl := "http://localhost:8529";
                  username := Some "root"; password := None; auth := None |})
    = {| cfg_url := "http://localhost:8529"; cfg_databaseName := None; cfg_auth := None |}.
Proof.
  split; [vm_compute; reflexivity |].
  refine (proj1 (proj2 (proj2 (credential_pairing ["http://localhost:8529"; "root"] _ _)
                          "http://localhost:8529" "root" _)));
    vm_compute; reflexivity.
Defined.

(** C9: on every startup that reaches the server, an empty string in
    the place of the username or in the place of the password leaves
    the configuration without credentials: the root connection and
    every connection the cache makes carry none. *)
Theorem empty_credentials_absent (rawArgs : list string) (cfg : Config) :
  startup rawArgs = Ok cfg →
  positionals_of rawArgs !! 1 = Some "" ∨ positionals_of rawArgs !! 2 = Some "" →
  auth cfg = None
  ∧ cfg_auth (config (db cfg)) = None
  ∧ ∀ databaseName st, cfg_auth (config (fresh_connection cfg databaseName st)) = None.
Proof.
  intros Hstart Hempty. apply startup_Ok in Hstart as (_ & _ & _ & _ & _ & Hauth).
  assert (Hnone : auth cfg = None).
  { rewrite Hauth. apply make_auth_None. destruct Hempty as [-> | ->]; auto. }
  by repeat split.
Qed.

Lemma empty_credentials_absent_witness :
  startup ["http://localhost:8529"; ""; "secret"]
  = Ok {| enableWrite := false; databaseUrl := "http://localhost:8529";
          username := Some ""; password := Some "secret"; auth := None |}
  ∧ startup ["http://localhost:8529"; "root"; ""]
    = Ok {| enableWrite := false; databaseUrl := "http://localhost:8529";
            username := Some "root"; password := Some ""; auth := None |}
  ∧ auth {| enableWrite := false; databaseUrl := "http://localhost:8529";
            username := Some ""; password := Some "secret"; auth := None |} = None.
Proof.
  split; [vm_compute; reflexivity |]. split; [vm_compute; reflexivity |].
  refine (proj1 (empty_credentials_absent ["http://localhost:8529"; ""; "secret"] _ _ _)).
  - vm_compute; reflexivity.
  - left. reflexivity.
Defined.

(** ** The cache under the requests *)

Section Requests.
Variable cfg : Config.
Implicit Types (st : State) (srv : Server) (conn : Database).

Lemma getOrCreate_subseteq databaseName st :
  databaseConnections st
  ⊆ databaseConnections (getOrCreateDatabaseConnection cfg databaseName st).2.
Proof.
  destruct (databaseConnections st !! databaseName) as [conn|] eqn:Hl.
  - by rewrite (getOrCreate_cached _ _ _ _ Hl).
  - rewrite (getOrCreate_fresh _ _ _ Hl). cbn. by apply insert_subseteq.
Qed.

Lemma getOrCreate_allocated databaseName st :
  (allocated st ≤ allocated (getOrCreateDatabaseConnection cfg databaseName st).2)%nat.
Proof.
  destruct (databaseConnections st !! databaseName) as [conn|] eqn:Hl.
  - by rewrite (getOrCreate_cached _ _ _ _ Hl).
  - rewrite (getOrCreate_fresh _ _ _ Hl). cbn. lia.
Qed.

Lemma getOrCreate_cache_ok databaseName st :
  cache_ok st → cache_ok (getOrCreateDatabaseConnection cfg databaseName st).2.
Proof.
  intros Hok.
  destruct (databaseConnections st !! databaseName) as [conn|] eqn:Hl.
  - by rewrite (getOrCreate_cached _ _ _ _ Hl).
  - rewrite (getOrCreate_fresh _ _ _ Hl). intros other conn. cbn.
    rewrite lookup_insert. case_decide as Hname.
    + intros [= <-]. subst other. cbn. split; [done | lia].
    + intros Hother. apply Hok in Hother as [? ?]. split; [done | lia].
Qed.

(** In a consistent cache the connection of a name talks to the
    database of that name. *)
Lemma getOrCreate_bound_database databaseName st :
  cache_ok st →
  bound_database (getOrCreateDatabaseConnection cfg databaseName st).1 = databaseName.
Proof.
  intros Hok. unfold bound_database.
  destruct (databaseConnections st !! databaseName) as [conn|] eqn:Hl.
  - rewrite (getOrCreate_cached _ _ _ _ Hl). cbn.
    apply Hok in Hl as [-> _]. done.
  - by rewrite (getOrCreate_fresh _ _ _ Hl).
Qed.

Lemma lookups_state databaseNames : ∀ st,
  databaseConnections st ⊆ databaseConnections (lookups cfg databaseNames st)
  ∧ (allocated st ≤ allocated (lookups cfg databaseNames st))%nat
  ∧ (cache_ok st → cache_ok (lookups cfg databaseNames st)).
Proof.
  induction databaseNames as [|databaseName rest IH]; intros st; cbn [lookups].
  - split; [reflexivity | split; [lia | done]].
  - pose proof (getOrCreate_subseteq databaseName st) as Hsub.
    pose proof (getOrCreate_allocated databaseName st) as Hle.
    pose proof (getOrCreate_cache_ok databaseName st) as Hok.
    destruct (IH (getOrCreateDatabaseConnection cfg databaseName st).2)
      as (IHsub & IHle & IHok).
    split; [by etrans |]. split; [lia | auto].
Qed.

Lemma map_databases_lookups srv userDatabases : ∀ st,
  (map_databases cfg srv userDatabases st).2 = lookups cfg userDatabases st.
Proof.
  induction userDatabases as [|database rest IH]; intros st; cbn; [done |].
  destruct (getOrCreateDatabaseConnection cfg database st) as [conn st1].
  specialize (IH st1).
  by destruct (map_databases cfg srv rest st1) as [promises st2].
Qed.

(** A request changes the state by its lookups and by nothing else. *)
Lemma handle_lookups request srv st :
  (handle cfg request srv st).2 = lookups cfg (lookups_of cfg request srv) st.
Proof.
  destruct request as [|href database collection|href database collection documentID|tool args];
    cbn [handle lookups_of].
  - unfold listCollectionResources.
    destruct (srv_databases srv) as [allDatabases|e]; [| done].
    rewrite <- (map_databases_lookups srv).
    by destruct (map_databases cfg srv _ st).
  - unfold readCollectionResource. cbn [lookups].
    by destruct (getOrCreateDatabaseConnection cfg database st).
  - unfold readDocumentResource. cbn [lookups].
    by destruct (getOrCreateDatabaseConnection cfg database st).
  - unfold toolNames, registeredTools.
    destruct (enableWrite cfg); cbn;
      repeat (case_decide; [subst tool |]);
      unfold readQuery, readWriteQuery, runQuery, listDatabases, listCollections.
    all: first
      [ rewrite bool_decide_eq_true_2 by (split; [set_solver | done]);
        cbn [lookups];
        by destruct (getOrCreateDatabaseConnection cfg (arg_databaseName args) st)
      | rewrite bool_decide_eq_false_2; [done |];
        intros [Hin Hne]; try done;
        repeat (apply elem_of_cons in Hin as [Hin|Hin]; [congruence |]);
        by apply elem_of_nil in Hin ].
Qed.

(** The state a request leaves behind. *)
Lemma handle_state request srv st :
  let st' := (handle cfg request srv st).2 in
  databaseConnections st ⊆ databaseConnections st'
  ∧ (allocated st ≤ allocated st')%nat
  ∧ (cache_ok st → cache_ok st').
Proof. cbv zeta. rewrite handle_lookups. apply lookups_state. Qed.

Lemma serve_state requests : ∀ st,
  databaseConnections st ⊆ databaseConnections (serve cfg requests st)
  ∧ (allocated st ≤ allocated (serve cfg requests st))%nat
  ∧ (cache_ok st → cache_ok (serve cfg requests st)).
Proof.
  induction requests as [|[srv request] rest IH]; intros st; cbn [serve].
  - split; [reflexivity | split; [lia | done]].
  - destruct (handle_state request srv st) as (Hsub & Hle & Hok).
    destruct (IH (handle cfg request srv st).2) as (IHsub & IHle & IHok).
    split; [by etrans |]. split; [lia | auto].
Qed.

Lemma cache_ok_initial : cache_ok initial.
Proof. intros n conn. unfold initial. cbn. by rewrite lookup_empty. Qed.
End Requests.

(** ** [Promise.all] and the listings *)

Section Listings.
Variable cfg : Config.
Implicit Types (st : State) (srv : Server).

Lemma first_rejection_None {A} (ps : list (Promise A)) :
  first_rejection ps = None ↔ ∀ t e, (t, Throw e) ∉ ps.
Proof.
  induction ps as [|[t [a|e]] ps IH]; cbn.
  - split; [| done]. intros _ t e. apply not_elem_of_nil.
  - rewrite IH. split; intros H t' e'.
    + rewrite elem_of_cons. intros [[=]|Hin]. by eapply H.
    + intros Hin. eapply H. by right.
  - split.
    + destruct (first_rejection ps) as [[t' e']|]; [case_match |]; done.
    + intros H. exfalso. eapply H. by left.
Qed.

Lemma first_rejection_Some {A} (ps : list (Promise A)) t e :
  first_rejection ps = Some (t, e) → (t, Throw e) ∈ ps.
Proof.
  revert t e. induction ps as [|[t' [a|e']] ps IH]; intros t e; cbn.
  - done.
  - intros H. right. by apply IH.
  - destruct (first_rejection ps) as [[t'' e'']|].
    + case_match; intros [= <- <-]; [right; by apply IH | by left].
    + intros [= <- <-]. by left.
Qed.

(** [Promise.all] rejects as soon as one promise of the list rejects,
    and what it throws is the failure of one of them. *)
Lemma promise_all_rejects {A} (ps : list (Promise A)) t e :
  (t, Throw e) ∈ ps → ∃ t' e', promise_all ps = Throw e' ∧ (t', Throw e') ∈ ps.
Proof.
  intros Hin. unfold promise_all.
  destruct (first_rejection ps) as [[t' e']|] eqn:Hfirst.
  - exists t', e'. split; [done |]. by apply first_rejection_Some.
  - exfalso. by eapply first_rejection_None.
Qed.

(** The rows the collections query returns always pass the schema. *)
Lemma parse_all_collections_query (all : list CollectionInfo) :
  parse_all (Aql.collections_query all)
  = Ok (map (λ collection, {| _id := info_id collection; name := info_name collection |})
          (List.filter (λ collection, negb (Aql.STARTS_WITH (info_name collection) "_")) all)).
Proof.
  unfold Aql.collections_query.
  induction (List.filter _ all) as [|collection rest IH]; cbn; [done |].
  cbn in IH. by rewrite IH.
Qed.

(** The promises the listing waits for, one per database, in order. *)
Lemma map_databases_promises srv userDatabases : ∀ st,
  cache_ok st →
  (map_databases cfg srv userDatabases st).1
  = map (λ database,
           ((srv_collections srv database).1,
            do collections <- (do all <- (srv_collections srv database).2;
                               parse_all (Aql.collections_query all));
            Ok (database, collections)))
      userDatabases.
Proof.
  induction userDatabases as [|database rest IH]; intros st Hok; cbn; [done |].
  pose proof (getOrCreate_bound_database cfg database st Hok) as Hbound.
  pose proof (getOrCreate_cache_ok cfg database st Hok) as Hok1.
  destruct (getOrCreateDatabaseConnection cfg database st) as [conn st1].
  specialize (IH st1 Hok1).
  destruct (map_databases cfg srv rest st1) as [promises st2].
  cbn in *. by rewrite Hbound, IH.
Qed.
End Listings.

(** ** The claims about the cache and the listings *)

(** C1: for every non-empty database name, two calls of
    [getOrCreateDatabaseConnection] in a row return the same instance
    (the same identity, not only an equal configuration), and the second
    call leaves the state of the cache as the first one left it. *)
Theorem cache_identity (cfg : Config) (databaseName : string) (st : State) :
  databaseName ≠ "" →
  let first := getOrCreateDatabaseConnection cfg databaseName st in
  let second := getOrCreateDatabaseConnection cfg databaseName first.2 in
  second.1 = first.1 ∧ oid second.1 = oid first.1 ∧ second.2 = first.2.
Proof.
  intros _ first second. subst second.
  rewrite (getOrCreate_cached cfg databaseName first.2 first.1)
    by apply getOrCreate_bound.
  done.
Qed.

Lemma cache_identity_witness :
  (getOrCreateDatabaseConnection
     {| enableWrite := false; databaseUrl := "http://localhost:8529";
        username := None; password := None; auth := None |} "mydb" initial).1
  = {| oid := 1;
       config := {| cfg_url := "http://localhost:8529";
                    cfg_databaseName := Some "mydb"; cfg_auth := None |} |}
  ∧ let cfg := {| enableWrite := false; databaseUrl := "http://localhost:8529";
                  username := None; password := None; auth := None |} in
    let first := getOrCreateDatabaseConnection cfg "mydb" initial in
    let second := getOrCreateDatabaseConnection cfg "mydb" first.2 in
    second.1 = first.1 ∧ oid second.1 = oid first.1 ∧ second.2 = first.2.
Proof.
  split; [reflexivity |].
  apply (cache_identity _ "mydb" initial). discriminate.
Defined.

(** C5: the cache only grows.  Once [getOrCreateDatabaseConnection] has
    returned a connection for a name, then after any requests served
    since, and after any sequence of lookups that interleaved callbacks
    may have made, every binding of the cache is still there, the name
    is still bound to that connection, and a lookup of the name returns
    that same connection and changes nothing. *)
Theorem cache_persistence (cfg : Config) (databaseName : string) (st : State) :
  let stored := getOrCreateDatabaseConnection cfg databaseName st in
  let kept later :=
    databaseConnections stored.2 ⊆ databaseConnections later
    ∧ databaseConnections later !! databaseName = Some stored.1
    ∧ getOrCreateDatabaseConnection cfg databaseName later = (stored.1, later) in
  (∀ requests, kept (serve cfg requests stored.2))
  ∧ (∀ databaseNames, kept (lookups cfg databaseNames stored.2)).
Proof.
  intros stored kept.
  assert (Hkept : ∀ later,
             databaseConnections stored.2 ⊆ databaseConnections later → kept later).
  { intros later Hsub.
    assert (Hbound : databaseConnections later !! databaseName = Some stored.1).
    { eapply lookup_weaken; [apply getOrCreate_bound | exact Hsub]. }
    split; [exact Hsub |]. split; [exact Hbound |].
    by apply getOrCreate_cached. }
  split.
  - intros requests. apply Hkept, serve_state.
  - intros databaseNames. apply Hkept, lookups_state.
Qed.

(** The listing in a consistent cache: one failing database makes the
    whole listing throw the failure of one of the databases. *)
Lemma listing_rejects (cfg : Config) (srv : Server) (st : State)
    (allDatabases : list string) (database : string) (e : Failure) :
  cache_ok st →
  srv_databases srv = Ok allDatabases →
  database ∈ allDatabases → database ≠ "_system" →
  (srv_collections srv database).2 = Throw e →
  (∃ failed e',
      (listCollectionResources cfg srv st).1 = Throw e'
      ∧ failed ∈ allDatabases ∧ failed ≠ "_system"
      ∧ (srv_collections srv failed).2 = Throw e')
  ∧ ∀ resources, (listCollectionResources cfg srv st).1 ≠ Ok (Resources resources).
Proof.
  intros Hok Hdbs Hin Hne Hfail.
  set (userDatabases := List.filter (λ d, negb (bool_decide (d = "_system"))) allDatabases).
  assert (Huser : ∀ d, d ∈ userDatabases ↔ d ∈ allDatabases ∧ d ≠ "_system").
  { intros d. subst userDatabases. rewrite !list_elem_of_In, filter_In.
    rewrite negb_true_iff, bool_decide_eq_false. done. }
  assert (Hlist : ∃ failed e',
             (listCollectionResources cfg srv st).1 = Throw e'
             ∧ failed ∈ userDatabases ∧ (srv_collections srv failed).2 = Throw e').
  { unfold listCollectionResources. rewrite Hdbs. fold userDatabases.
    pose proof (map_databases_promises cfg srv userDatabases st Hok) as Hps.
    destruct (map_databases cfg srv userDatabases st) as [promises st1].
    cbn in Hps. subst promises. cbn [fst].
    edestruct (promise_all_rejects (A := string * list CollectionType)) as (t' & e' & -> & Hin').
    { apply list_elem_of_fmap. exists database. split; [| by apply Huser].
      rewrite Hfail. cbn. reflexivity. }
    apply list_elem_of_fmap in Hin' as (failed & Heq & Hfailed).
    exists failed, e'. split; [done |]. split; [done |].
    injection Heq as _ Heq.
    destruct (srv_collections srv failed).2 as [all|e'']; cbn in Heq.
    - by rewrite parse_all_collections_query in Heq.
    - congruence. }
  destruct Hlist as (failed & e' & Hthrow & Hfailed & Hcause).
  apply Huser in Hfailed as [? ?].
  split; [by exists failed, e' |].
  intros resources. by rewrite Hthrow.
Qed.

(** C7: in every state the program reaches, when the query for the
    collections of one database other than [_system] fails, the listing
    of the collection resources throws; what it throws is the failure
    of one of the databases, and it returns no list of resources, so
    none with the failing database left out. *)
Theorem listing_all_or_nothing (cfg : Config) (requests : list (Server * Request))
    (srv : Server) (allDatabases : list string) (database : string) (e : Failure) :
  srv_databases srv = Ok allDatabases →
  database ∈ allDatabases → database ≠ "_system" →
  (srv_collections srv database).2 = Throw e →
  let st := serve cfg requests initial in
  (∃ failed e',
      (listCollectionResources cfg srv st).1 = Throw e'
      ∧ failed ∈ allDatabases ∧ failed ≠ "_system"
      ∧ (srv_collections srv failed).2 = Throw e')
  ∧ ∀ resources, (listCollectionResources cfg srv st).1 ≠ Ok (Resources resources).
Proof.
  intros Hdbs Hin Hne Hfail st.
  apply (listing_rejects cfg srv st allDatabases database e); try done.
  apply serve_state, cache_ok_initial.
Qed.

Lemma listing_all_or_nothing_witness :
  srv_databases sample_server = Ok ["_system"; "shop"; "logs"]
  ∧ (srv_collections sample_server "logs").2 = Throw (ArangoError "database not found")
  ∧ (listCollectionResources sample_config sample_server initial).1
    = Throw (ArangoError "database not found")
  ∧ ∀ resources,
      (listCollectionResources sample_config sample_server initial).1
      ≠ Ok (Resources resources).
Proof.
  split; [reflexivity |]. split; [reflexivity |]. split; [reflexivity |].
  refine (proj2 (listing_all_or_nothing sample_config [] sample_server
                   ["_system"; "shop"; "logs"] "logs" (ArangoError "database not found")
                   _ _ _ _)).
  - reflexivity.
  - apply list_elem_of_In. simpl. auto.
  - discriminate.
  - reflexivity.
Defined.

(** What [listCollections] returns in a consistent cache. *)
Lemma listCollections_returns (cfg : Config) (srv : Server) (st : State)
    (args : ToolArguments) (t : nat) (all : list CollectionInfo) :
  cache_ok st →
  srv_collections srv (arg_databaseName args) = (t, Ok all) →
  (listCollections cfg args srv st).1
  = Ok (Content
          (JArray
             (map (λ collection, JObject [("name", JString (info_name collection))])
                (List.filter (λ collection, negb (Js.startsWith (info_name collection) "_"))
                   all)))).
Proof.
  intros Hok Hsrv. unfold listCollections.
  pose proof (getOrCreate_bound_database cfg (arg_databaseName args) st Hok) as Hbound.
  destruct (getOrCreateDatabaseConnection cfg (arg_databaseName args) st) as [conn st1].
  cbn in *. unfold getCollections. rewrite Hbound, Hsrv. cbn.
  rewrite parse_all_collections_query. cbn.
  by rewrite map_map.
Qed.

(** C8: in every state the program reaches, where the query for the
    collections of the database succeeds, [listCollections] returns, in
    the order of the database, one object with the single field [name]
    for each of its collections whose name does not start with an
    underscore, and nothing else. *)
Theorem listCollections_underscore_filter (cfg : Config) (requests : list (Server * Request))
    (srv : Server) (args : ToolArguments) (t : nat) (all : list CollectionInfo) :
  srv_collections srv (arg_databaseName args) = (t, Ok all) →
  (listCollections cfg args srv (serve cfg requests initial)).1
  = Ok (Content
          (JArray
             (map (λ collection, JObject [("name", JString (info_name collection))])
                (List.filter (λ collection, negb (Js.startsWith (info_name collection) "_"))
                   all)))).
Proof.
  intros Hsrv. eapply listCollections_returns; [| exact Hsrv].
  apply serve_state, cache_ok_initial.
Qed.

Lemma listCollections_underscore_filter_witness :
  srv_collections sample_server "shop"
  = (2, Ok [ {| info_id := "101"; info_name := "users" |};
             {| info_id := "102"; info_name := "_internal" |} ])
  ∧ (listCollections sample_config {| arg_databaseName := "shop"; arg_aql := "" |}
       sample_server initial).1
    = Ok (Content (JArray [JObject [("name", JString "users")]])).
Proof.
  split; [reflexivity |].
  apply (listCollections_underscore_filter sample_config [] sample_server
           {| arg_databaseName := "shop"; arg_aql := "" |} 2
           [ {| info_id := "101"; info_name := "users" |};
             {| info_id := "102"; info_name := "_internal" |} ]).
  reflexivity.
Defined.

(** ** Evaluation on concrete inputs *)

Example parse_collection :
  parseArangoDBURI "arangodb:///mydb/items" = Ok (ArangoDBCollectionURI "mydb" "items").
Proof. reflexivity. Qed.

Example parse_document :
  parseArangoDBURI "arangodb:///mydb/items/42"
  = Ok (ArangoDBDocumentURI "mydb" "items" "42").
Proof. reflexivity. Qed.

Example parse_missing_prefix :
  parseArangoDBURI "foo:///a/b" = Throw {| message := message_of MissingPrefix |}.
Proof. reflexivity. Qed.

Example parse_one_component :
  parseArangoDBURI "arangodb:///onlyone"
  = Throw {| message :=
      "URI must have 2 or 3 components: databaseName/collectionName[/documentId]" |}.
Proof. reflexivity. Qed.

Example parse_four_components :
  parseArangoDBURI "arangodb:///a/b/c/d" = Throw {| message := message_of WrongCount |}.
Proof. reflexivity. Qed.

Example parse_prefix_only :
  parseArangoDBURI "arangodb:///" = Throw {| message := message_of WrongCount |}.
Proof. reflexivity. Qed.

Example parse_empty_database :
  parseArangoDBURI "arangodb:////b" = Throw {| message := "Database name cannot be empty" |}.
Proof. reflexivity. Qed.

Example parse_empty_collection :
  parseArangoDBURI "arangodb:///a/" = Throw {| message := "Collection name cannot be empty" |}.
Proof. reflexivity. Qed.

Example parse_empty_document :
  parseArangoDBURI "arangodb:///a/b/" = Throw {| message := "Document ID cannot be empty" |}.
Proof. reflexivity. Qed.

Example parse_empty_database_before_collection :
  parseArangoDBURI "arangodb:////" = Throw {| message := "Database name cannot be empty" |}.
Proof. reflexivity. Qed.

Example startup_help :
  startup ["--help"] = Throw {| exitCode := 0; stderr := [usage] |}.
Proof. vm_compute; reflexivity. Qed.

Example startup_unknown_flag :
  startup ["--bogus-flag"; "http://host"]
  = Throw {| exitCode := 1; stderr := ["Unknown flag: --bogus-flag"; usage] |}.
Proof. vm_compute; reflexivity. Qed.

Example startup_unknown_flag_after_help :
  startup ["--help"; "--bogus-flag"]
  = Throw {| exitCode := 1; stderr := ["Unknown flag: --bogus-flag"; usage] |}.
Proof. vm_compute; reflexivity. Qed.

Example startup_without_url :
  startup ["--enable-write"]
  = Throw {| exitCode := 1; stderr := ["Please provide a database URL"; usage] |}.
Proof. vm_compute; reflexivity. Qed.

Example startup_with_credentials :
  startup ["http://localhost:8529"; "root"; "secret"; "--enable-write"]
  = Ok {| enableWrite := true; databaseUrl := "http://localhost:8529";
          username := Some "root"; password := Some "secret";
          auth := Some {| auth_username := "root"; auth_password := "secret" |} |}.
Proof. vm_compute; reflexivity. Qed.

Example tools_without_write :
  toolNames sample_config = ["readQuery"; "listDatabases"; "listCollections"].
Proof. reflexivity. Qed.

Example listing_after_drop :
  (listCollectionResources sample_config sample_server_after_drop initial).1
  = Ok (Resources
          [ {| res_uri := "arangodb:///shop/users";
               res_mimeType := "application/json";
               res_name := "shop/users";
               res_description :=
                 "Collection " +:+ dquote +:+ "users" +:+ dquote
                 +:+ " in database " +:+ dquote +:+ "shop" +:+ dquote |} ]).
Proof. vm_compute; reflexivity. Qed.

Example listed_uri_parses :
  parseArangoDBURI
    (res_uri (collection_resource "shop" {| _id := "101"; name := "users" |}))
  = Ok (ArangoDBCollectionURI "shop" "users").
Proof. reflexivity. Qed.

(** The failing listing has still looked up both databases. *)
Example listing_failure_fills_cache :
  dom (databaseConnections
         (listCollectionResources sample_config sample_server initial).2)
  = {[ "shop"; "logs" ]}.
Proof. vm_compute; reflexivity. Qed.

Example distinct_names_distinct_instances :
  oid (getOrCreateDatabaseConnection sample_config "logs"
         (getOrCreateDatabaseConnection sample_config "shop" initial).2).1 = 2
  ∧ oid (getOrCreateDatabaseConnection sample_config "shop" initial).1 = 1.
Proof. split; reflexivity. Qed.

(** * Further properties *)

(** ** Startup: exits and configuration *)

Section StartupOutcome.
Implicit Types (rawArgs positionals : list string) (flags : gset string).

Lemma scanArgs_unknown rawArgs : ∀ flags positionals f others,
  unknown_flags rawArgs = f :: others →
  scanArgs rawArgs flags positionals
  = Throw {| exitCode := 1; stderr := ["Unknown flag: " +:+ f; usage] |}.
Proof.
  induction rawArgs as [|arg rest IH]; intros flags positionals f others; [done |].
  unfold unknown_flags. cbn [List.filter scanArgs].
  destruct (Js.startsWith arg "--"); cbn [andb]; [| by apply IH].
  case_decide as Hknown.
  - rewrite bool_decide_eq_true_2 by done. cbn [negb]. by apply IH.
  - rewrite bool_decide_eq_false_2 by done. cbn [negb]. by intros [= <- _].
Qed.

Lemma scanArgs_known rawArgs : ∀ flags positionals,
  unknown_flags rawArgs = [] →
  ∃ flags', scanArgs rawArgs flags positionals
            = Ok (flags', (positionals ++ positionals_of rawArgs)%list).
Proof.
  induction rawArgs as [|arg rest IH]; intros flags positionals.
  - intros _. exists flags. cbn. by rewrite app_nil_r.
  - unfold unknown_flags, positionals_of. cbn [List.filter scanArgs].
    destruct (Js.startsWith arg "--"); cbn [andb negb].
    + case_decide as Hknown.
      * rewrite bool_decide_eq_true_2 by done. cbn [negb]. by apply IH.
      * rewrite bool_decide_eq_false_2 by done. done.
    + intros Hrest. destruct (IH flags (positionals ++ [arg])%list Hrest) as [flags' ->].
      exists flags'. by rewrite <- app_assoc.
Qed.

Lemma unknown_flags_of_Ok rawArgs flags positionals r :
  scanArgs rawArgs flags positionals = Ok r → unknown_flags rawArgs = [].
Proof.
  destruct (unknown_flags rawArgs) as [|f others] eqn:Hu; [done |].
  by rewrite (scanArgs_unknown _ _ _ _ _ Hu).
Qed.
End StartupOutcome.

(** X1: an argument that starts with two dashes and is not a known flag
    ends the startup with exit code 1 and the message for the first
    such argument, whatever else is given, [--help] included. *)
Theorem startup_unknown_flag_exits (rawArgs : list string) (f : string) (others : list string) :
  unknown_flags rawArgs = f :: others →
  startup rawArgs = Throw {| exitCode := 1; stderr := ["Unknown flag: " +:+ f; usage] |}.
Proof.
  intros Hu. unfold startup. by rewrite (scanArgs_unknown _ _ _ _ _ Hu).
Qed.

Lemma startup_unknown_flag_exits_witness :
  unknown_flags ["--help"; "http://host"; "--bogus"; "--other"] = ["--bogus"; "--other"]
  ∧ startup ["--help"; "http://host"; "--bogus"; "--other"]
    = Throw {| exitCode := 1; stderr := ["Unknown flag: " +:+ "--bogus"; usage] |}.
Proof.
  split; [vm_compute; reflexivity |].
  apply (startup_unknown_flag_exits _ "--bogus" ["--other"]).
  vm_compute; reflexivity.
Defined.

(** X2: when every flag is known and [--help] is among the arguments,
    the startup prints the usage and exits with code 0, with or without
    a URL and whatever the other arguments are. *)
Theorem startup_help_exits (rawArgs : list string) :
  unknown_flags rawArgs = [] → "--help" ∈ rawArgs →
  startup rawArgs = Throw {| exitCode := 0; stderr := [usage] |}.
Proof.
  intros Hu Hhelp. unfold startup.
  destruct (scanArgs_known rawArgs ∅ [] Hu) as [flags Hscan]. rewrite Hscan.
  apply scanArgs_Ok in Hscan as [Hflags _]. cbn [bind fst snd].
  unfold configure. rewrite decide_True; [done |].
  apply Hflags. right. done.
Qed.

Lemma startup_help_exits_witness :
  startup ["http://host"; "--enable-write"; "root"; "--help"]
  = Throw {| exitCode := 0; stderr := [usage] |}.
Proof.
  apply startup_help_exits; [vm_compute; reflexivity |].
  apply list_elem_of_In. simpl. auto.
Defined.




Lemma positionals_of_no_flag (rawArgs : list string) (k : nat) (arg : string) :
  positionals_of rawArgs !! k = Some arg → Js.startsWith arg "--" = false.
Proof.
  intros Hk. apply list_elem_of_lookup_2, list_elem_of_In in Hk.
  apply filter_In in Hk as [_ Hk]. by apply negb_true_iff in Hk.
Qed.

(** X5: the configuration depends on nothing but the first three
    positional arguments and on whether [--enable-write] is given: where
    the flags stand among the arguments, how often they are given and
    what follows the third positional argument make no difference. *)
Theorem startup_flag_position_irrelevant (rawArgs rawArgs' : list string) (cfg cfg' : Config) :
  startup rawArgs = Ok cfg → startup rawArgs' = Ok cfg' →
  take 3 (positionals_of rawArgs) = take 3 (positionals_of rawArgs') →
  ("--enable-write" ∈ rawArgs ↔ "--enable-write" ∈ rawArgs') →
  cfg = cfg'.
Proof.
  intros H H' Hpos Hflag.
  apply startup_Ok in H as (Hw & _ & Hurl & Hu & Hp & Ha).
  apply startup_Ok in H' as (Hw' & _ & Hurl' & Hu' & Hp' & Ha').
  assert (Hk : ∀ k, (k < 3)%nat →
             positionals_of rawArgs !! k = positionals_of rawArgs' !! k).
  { intros k Hlt. rewrite <- (lookup_take_lt (positionals_of rawArgs) 3 k) by done.
    rewrite <- (lookup_take_lt (positionals_of rawArgs') 3 k) by done.
    by rewrite Hpos. }
  rewrite (Hk 0), (Hk 1), (Hk 2) in * by lia.
  rewrite (bool_decide_ext _ _ Hflag) in Hw.
  destruct cfg, cfg'; cbn in *. congruence.
Qed.

Lemma startup_flag_position_irrelevant_witness :
  startup ["--enable-write"; "http://host"; "root"; "secret"]
  = Ok {| enableWrite := true; databaseUrl := "http://host";
          username := Some "root"; password := Some "secret";
          auth := Some {| auth_username := "root"; auth_password := "secret" |} |}
  ∧ startup ["http://host"; "root"; "--enable-write"; "secret"; "more"; "--enable-write"]
    = Ok {| enableWrite := true; databaseUrl := "http://host";
            username := Some "root"; password := Some "secret";
            auth := Some {| auth_username := "root"; auth_password := "secret" |} |}
  ∧ {| enableWrite := true; databaseUrl := "http://host";
       username := Some "root"; password := Some "secret";
       auth := Some {| auth_username := "root"; auth_password := "secret" |} |}
    = {| enableWrite := true; databaseUrl := "http://host";
         username := Some "root"; password := Some "secret";
         auth := Some {| auth_username := "root"; auth_password := "secret" |} |}.
Proof.
  split; [vm_compute; reflexivity |]. split; [vm_compute; reflexivity |].
  apply (startup_flag_position_irrelevant
           ["--enable-write"; "http://host"; "root"; "secret"]
           ["http://host"; "root"; "--enable-write"; "secret"; "more"; "--enable-write"]).
  - vm_compute; reflexivity.
  - vm_compute; reflexivity.
  - reflexivity.
  - split; intros _; apply list_elem_of_In; simpl; auto 10.
Defined.

(** X6: on a startup that reaches the server, the credentials are the
    second and third positional arguments, and they are set exactly when
    both are given and neither is the empty string. *)
Theorem startup_auth_iff (rawArgs : list string) (cfg : Config) (u p : string) :
  startup rawArgs = Ok cfg →
  (auth cfg = Some {| auth_username := u; auth_password := p |}
   ↔ positionals_of rawArgs !! 1 = Some u ∧ positionals_of rawArgs !! 2 = Some p
     ∧ u ≠ "" ∧ p ≠ "").
Proof.
  intros H. apply startup_Ok in H as (_ & _ & _ & _ & _ & ->).
  rewrite make_auth_Some. split.
  - intros (u' & p' & -> & -> & ? & ? & [= -> ->]). done.
  - intros (-> & -> & ? & ?). by exists u, p.
Qed.

Lemma startup_auth_iff_witness :
  startup ["http://host"; "root"; "secret"]
  = Ok {| enableWrite := false; databaseUrl := "http://host";
          username := Some "root"; password := Some "secret";
          auth := Some {| auth_username := "root"; auth_password := "secret" |} |}
  ∧ (auth {| enableWrite := false; databaseUrl := "http://host";
             username := Some "root"; password := Some "secret";
             auth := Some {| auth_username := "root"; auth_password := "secret" |} |}
     = Some {| auth_username := "root"; auth_password := "secret" |}
     ↔ positionals_of ["http://host"; "root"; "secret"] !! 1 = Some "root"
       ∧ positionals_of ["http://host"; "root"; "secret"] !! 2 = Some "secret"
       ∧ "root" ≠ "" ∧ "secret" ≠ "").
Proof.
  split; [vm_compute; reflexivity |].
  apply (startup_auth_iff ["http://host"; "root"; "secret"]).
  vm_compute; reflexivity.
Defined.

(** X7: no positional argument starts with two dashes, so on a startup
    that reaches the server neither the URL nor the username nor the
    password does: such a value cannot be passed. *)
Theorem startup_no_dashed_values (rawArgs : list string) (cfg : Config) :
  startup rawArgs = Ok cfg →
  Js.startsWith (databaseUrl cfg) "--" = false
  ∧ (∀ u, username cfg = Some u → Js.startsWith u "--" = false)
  ∧ (∀ p, password cfg = Some p → Js.startsWith p "--" = false)
  ∧ (∀ a, auth cfg = Some a →
          Js.startsWith (auth_username a) "--" = false
          ∧ Js.startsWith (auth_password a) "--" = false).
Proof.
  intros H. apply startup_Ok in H as (_ & Hne & -> & -> & -> & Hauth).
  split; [| split; [| split]].
  - destruct (positionals_of rawArgs) as [|url rest] eqn:Hpos; [done |].
    apply (positionals_of_no_flag rawArgs 0). by rewrite Hpos.
  - intros u. apply positionals_of_no_flag.
  - intros p. apply positionals_of_no_flag.
  - intros a Ha. rewrite Hauth in Ha.
    apply make_auth_Some in Ha as (u & p & Hu & Hp & _ & _ & ->). cbn.
    split; eapply positionals_of_no_flag; eassumption.
Qed.

Lemma startup_no_dashed_values_witness :
  startup ["http://host"; "root"; "--secret"]
  = Throw {| exitCode := 1; stderr := ["Unknown flag: --secret"; usage] |}
  ∧ Js.startsWith
      (databaseUrl {| enableWrite := false; databaseUrl := "http://host";
                      username := Some "root"; password := Some "secret";
                      auth := Some {| auth_username := "root";
                                      auth_password := "secret" |} |}) "--" = false.
Proof.
  split; [vm_compute; reflexivity |].
  refine (proj1 (startup_no_dashed_values ["http://host"; "root"; "secret"] _ _)).
  vm_compute; reflexivity.
Defined.

(** ** The cache of a running server *)

Section CacheInvariant.
Variable cfg : Config.
Implicit Types (st : State) (databaseName : string) (databaseNames : list string).

Lemma cache_inv_initial : cache_inv cfg initial.
Proof.
  unfold cache_inv, initial. cbn. rewrite map_size_empty.
  split; [done |]. split; intros *; by rewrite lookup_empty.
Qed.

Lemma getOrCreate_cache_inv databaseName st :
  cache_inv cfg st → cache_inv cfg (getOrCreateDatabaseConnection cfg databaseName st).2.
Proof.
  intros (Hsize & Hbound & Hdistinct).
  destruct (databaseConnections st !! databaseName) as [conn|] eqn:Hl.
  { by rewrite (getOrCreate_cached _ _ _ _ Hl). }
  rewrite (getOrCreate_fresh _ _ _ Hl). unfold cache_inv. cbn.
  split; [| split].
  - rewrite map_size_insert_None by done. by rewrite Hsize.
  - intros n conn. rewrite lookup_insert. case_decide as Hn.
    + intros [= <-]. subst n. cbn. split; [done | lia].
    + intros Hc. apply Hbound in Hc as [? ?]. split; [done | lia].
  - intros n1 n2 c1 c2. rewrite !lookup_insert.
    repeat case_decide; subst.
    + done.
    + intros [= <-] Hc2 Hoid. apply Hbound in Hc2 as [_ ?]. cbn in Hoid. lia.
    + intros Hc1 [= <-] Hoid. apply Hbound in Hc1 as [_ ?]. cbn in Hoid. lia.
    + apply Hdistinct.
Qed.

Lemma lookups_cache_inv databaseNames : ∀ st,
  cache_inv cfg st → cache_inv cfg (lookups cfg databaseNames st).
Proof.
  induction databaseNames as [|n rest IH]; intros st Hinv; cbn [lookups]; [done |].
  by apply IH, getOrCreate_cache_inv.
Qed.

Lemma lookups_app databaseNames more : ∀ st,
  lookups cfg (databaseNames ++ more) st = lookups cfg more (lookups cfg databaseNames st).
Proof. induction databaseNames as [|n rest IH]; intros st; cbn; [done | apply IH]. Qed.

(** Serving requests is making their lookups, in order. *)
Lemma serve_lookups requests : ∀ st,
  serve cfg requests st = lookups cfg (requested cfg requests) st.
Proof.
  induction requests as [|[srv request] rest IH]; intros st; [done |].
  cbn [serve]. rewrite handle_lookups, IH.
  unfold requested. cbn [flat_map]. by rewrite lookups_app.
Qed.

Lemma serve_cache_inv requests : cache_inv cfg (serve cfg requests initial).
Proof. rewrite serve_lookups. apply lookups_cache_inv, cache_inv_initial. Qed.

Lemma getOrCreate_dom databaseName st :
  dom (databaseConnections (getOrCreateDatabaseConnection cfg databaseName st).2)
  = {[ databaseName ]} ∪ dom (databaseConnections st).
Proof.
  destruct (databaseConnections st !! databaseName) as [conn|] eqn:Hl.
  - rewrite (getOrCreate_cached _ _ _ _ Hl). cbn.
    apply elem_of_dom_2 in Hl. set_solver.
  - rewrite (getOrCreate_fresh _ _ _ Hl). cbn. by rewrite dom_insert_L.
Qed.

Lemma lookups_dom databaseNames : ∀ st,
  dom (databaseConnections (lookups cfg databaseNames st))
  = list_to_set databaseNames ∪ dom (databaseConnections st).
Proof.
  induction databaseNames as [|n rest IH]; intros st; cbn [lookups list_to_set].
  - set_solver.
  - rewrite IH, getOrCreate_dom. set_solver.
Qed.

(** Lookups of names that are all bound change nothing. *)
Lemma lookups_cached databaseNames st :
  (∀ n, n ∈ databaseNames → is_Some (databaseConnections st !! n)) →
  lookups cfg databaseNames st = st.
Proof.
  induction databaseNames as [|n rest IH]; intros Hall; cbn [lookups]; [done |].
  destruct (Hall n) as [conn Hconn]; [by left |].
  rewrite (getOrCreate_cached _ _ _ _ Hconn). cbn.
  apply IH. intros n' Hn'. apply Hall. by right.
Qed.
End CacheInvariant.

(** X8: in every state the program reaches, two different database
    names get two different instances, and neither is the root
    connection [db]. *)
Theorem cache_isolation (cfg : Config) (requests : list (Server * Request))
    (n1 n2 : string) :
  n1 ≠ n2 →
  let st := serve cfg requests initial in
  let first := getOrCreateDatabaseConnection cfg n1 st in
  let second := getOrCreateDatabaseConnection cfg n2 first.2 in
  oid first.1 ≠ oid second.1
  ∧ oid first.1 ≠ oid (db cfg) ∧ oid second.1 ≠ oid (db cfg).
Proof.
  intros Hne st first second.
  pose proof (serve_cache_inv cfg requests) as Hinv. fold st in Hinv.
  apply (getOrCreate_cache_inv cfg n1) in Hinv. fold first in Hinv.
  pose proof (getOrCreate_bound cfg n1 st) as H1. fold first in H1.
  apply (getOrCreate_preserves cfg n2) in H1. fold second in H1.
  apply (getOrCreate_cache_inv cfg n2) in Hinv. fold second in Hinv.
  pose proof (getOrCreate_bound cfg n2 first.2) as H2. fold second in H2.
  destruct Hinv as (_ & Hbound & Hdistinct).
  split; [| split].
  - intros Hoid. apply Hne. by eapply Hdistinct.
  - apply Hbound in H1. cbn. lia.
  - apply Hbound in H2. cbn. lia.
Qed.

Lemma cache_isolation_witness :
  oid (getOrCreateDatabaseConnection sample_config "shop" initial).1 = 1
  ∧ (let st := serve sample_config [] initial in
     let first := getOrCreateDatabaseConnection sample_config "shop" st in
     let second := getOrCreateDatabaseConnection sample_config "logs" first.2 in
     oid first.1 ≠ oid second.1
     ∧ oid first.1 ≠ oid (db sample_config) ∧ oid second.1 ≠ oid (db sample_config)).
Proof.
  split; [reflexivity |].
  apply (cache_isolation sample_config [] "shop" "logs"). discriminate.
Defined.



(** X11: a request all of whose databases are in the cache leaves the
    state as it is; so does serving again, with the same answers of the
    server, a request just served. *)
Theorem cached_request_keeps_state (cfg : Config) (request : Request) (srv : Server)
    (st : State) :
  ((∀ n, n ∈ lookups_of cfg request srv → is_Some (databaseConnections st !! n)) →
   (handle cfg request srv st).2 = st)
  ∧ (handle cfg request srv (handle cfg request srv st).2).2 = (handle cfg request srv st).2.
Proof.
  split.
  - intros Hall. rewrite handle_lookups. by apply lookups_cached.
  - rewrite !handle_lookups. apply lookups_cached. intros n Hn.
    apply elem_of_dom. rewrite lookups_dom. apply elem_of_union_l.
    by apply elem_of_list_to_set.
Qed.

(** ** The parser: what an accepted URI looks like *)

Lemma split_components_without_sep (s : string) (sep : ascii) :
  Forall (λ w, Js.includes w sep = false) (Js.split s sep).
Proof.
  induction s as [|c s IH]; cbn [Js.split].
  - by repeat constructor.
  - case_decide as Hc; [by constructor |].
    destruct (Js.split s sep) as [|w ws]; [repeat constructor; cbn; by rewrite decide_False |].
    apply Forall_cons in IH as [Hw Hws]. constructor; [| done].
    cbn. by rewrite decide_False.
Qed.

Lemma split_trailing_sep (s : string) (sep : ascii) :
  Js.split (s +:+ String sep "") sep = (Js.split s sep ++ [""])%list.
Proof.
  induction s as [|c s IH]; cbn.
  - by rewrite decide_True.
  - rewrite IH. case_decide; [done |].
    pose proof (split_not_nil s sep) as Hne. by destruct (Js.split s sep).
Qed.

Lemma parse_Ok_wellformed (uri : string) (a : ArangoDBURI) :
  parseArangoDBURI uri = Ok a →
  Forall (λ w, w ≠ "" ∧ Js.includes w "/" = false) (components_of a).
Proof.
  rewrite parse_cases. destruct (Js.startsWith uri "arangodb:///"); [| done].
  pose proof (split_components_without_sep
                (Js.slice uri (String.length "arangodb:///")) "/") as Hsep.
  destruct (Js.split _ "/") as [|d [|c [|i [|x xs]]]]; try done.
  - destruct d, c; cbn; try done. intros [= <-]. cbn.
    apply Forall_cons in Hsep as [? Hsep]. apply Forall_cons in Hsep as [? _].
    by repeat constructor.
  - destruct d, c, i; cbn; try done. intros [= <-]. cbn.
    apply Forall_cons in Hsep as [? Hsep]. apply Forall_cons in Hsep as [? Hsep].
    apply Forall_cons in Hsep as [? _].
    by repeat constructor.
Qed.

(** X12: every component of an address the parser returns is non-empty
    and contains no separator. *)
Theorem parse_components_wellformed (uri : string) (a : ArangoDBURI) :
  parseArangoDBURI uri = Ok a →
  Forall (λ w, w ≠ "" ∧ Js.includes w "/" = false) (components_of a).
Proof. apply parse_Ok_wellformed. Qed.

Lemma parse_components_wellformed_witness :
  parseArangoDBURI "arangodb:///mydb/items/42" = Ok (ArangoDBDocumentURI "mydb" "items" "42")
  ∧ Forall (λ w, w ≠ "" ∧ Js.includes w "/" = false) ["mydb"; "items"; "42"].
Proof.
  split; [reflexivity |].
  apply (parse_components_wellformed "arangodb:///mydb/items/42"
           (ArangoDBDocumentURI "mydb" "items" "42")).
  reflexivity.
Defined.

(** X13: the URI the listing gives to a collection parses back to the
    address of that database and collection exactly when both names are
    non-empty and contain no separator. *)
Theorem listed_uri_parses_iff (database : string) (collection : CollectionType) :
  parseArangoDBURI (res_uri (collection_resource database collection))
  = Ok (ArangoDBCollectionURI database (name collection))
  ↔ database ≠ "" ∧ name collection ≠ ""
    ∧ Js.includes database "/" = false ∧ Js.includes (name collection) "/" = false.
Proof.
  split.
  - intros H. apply parse_Ok_wellformed in H. cbn in H.
    apply Forall_cons in H as [[? ?] H']. apply Forall_cons in H' as [[? ?] _]. done.
  - intros (Hd & Hc & Hds & Hcs). apply truthy_Some in Hd, Hc.
    unfold collection_resource. cbn [res_uri]. rewrite parse_prefixed.
    change ("/" +:+ name collection) with (String "/" (name collection)).
    rewrite split_app_sep, split_without_sep by done. by rewrite Hd, Hc.
Qed.

(** X14: an accepted URI is no longer accepted with a separator added
    at its end: after a collection URI the document id is empty, after
    a document URI there is a component too many. *)
Theorem parse_trailing_separator (uri : string) (a : ArangoDBURI) :
  parseArangoDBURI uri = Ok a →
  parseArangoDBURI (uri +:+ "/")
  = Throw {| message :=
      match a with
      | ArangoDBCollectionURI _ _ => "Document ID cannot be empty"
      | ArangoDBDocumentURI _ _ _ =>
          "URI must have 2 or 3 components: databaseName/collectionName[/documentId]"
      end |}.
Proof.
  rewrite parse_cases. destruct (Js.startsWith uri "arangodb:///") eqn:Hp; [| done].
  rewrite (startsWith_slice _ _ Hp) at 2.
  rewrite app_assoc_string, parse_prefixed, split_trailing_sep.
  destruct (Js.split _ "/") as [|d [|c [|i [|x xs]]]]; try done.
  - destruct d, c; cbn; try done. by intros [= <-].
  - destruct d, c, i; cbn; try done. by intros [= <-].
Qed.

Lemma parse_trailing_separator_witness :
  parseArangoDBURI "arangodb:///mydb/items" = Ok (ArangoDBCollectionURI "mydb" "items")
  ∧ parseArangoDBURI ("arangodb:///mydb/items" +:+ "/")
    = Throw {| message := "Document ID cannot be empty" |}.
Proof.
  split; [reflexivity |].
  apply (parse_trailing_separator "arangodb:///mydb/items"
           (ArangoDBCollectionURI "mydb" "items")).
  reflexivity.
Defined.

(** ** The callbacks *)

Section Callbacks.
Variable cfg : Config.
Implicit Types (st : State) (srv : Server) (requests : list (Server * Request)).

Lemma reachable_cache_ok requests : cache_ok (serve cfg requests initial).
Proof. apply serve_state, cache_ok_initial. Qed.

Lemma getCollections_visible srv conn :
  (getCollections srv conn).2
  = match (srv_collections srv (bound_database conn)).2 with
    | Ok all => Ok (visible all)
    | Throw e => Throw e
    end.
Proof.
  unfold getCollections. cbn.
  destruct (srv_collections srv (bound_database conn)).2 as [all|e]; cbn; [| done].
  apply parse_all_collections_query.
Qed.

Lemma visible_names (all : list CollectionInfo) :
  Forall (λ c, Js.startsWith (name c) "_" = false) (visible all).
Proof.
  unfold visible. apply Forall_forall. intros c Hc.
  apply list_elem_of_fmap in Hc as (info & -> & Hinfo).
  apply list_elem_of_In, filter_In in Hinfo as [_ Hinfo].
  by apply negb_true_iff in Hinfo.
Qed.

Lemma promise_all_fulfilled {A B} (f : A → nat) (g : A → B) (l : list A) :
  promise_all (map (λ x, (f x, Ok (g x))) l) = Ok (map g l).
Proof.
  unfold promise_all.
  assert (Hnone : first_rejection (map (λ x, (f x, @Ok Failure B (g x))) l) = None).
  { induction l as [|x l IH]; [done | exact IH]. }
  rewrite Hnone. f_equal. induction l as [|x l IH]; cbn; [done | by rewrite IH].
Qed.

Lemma listing_returns srv st (allDatabases : list string)
    (collections : string → list CollectionInfo) :
  cache_ok st →
  srv_databases srv = Ok allDatabases →
  (∀ d, d ∈ user_databases allDatabases → (srv_collections srv d).2 = Ok (collections d)) →
  (listCollectionResources cfg srv st).1
  = Ok (Resources
          (flat_map (λ d, map (collection_resource d) (visible (collections d)))
             (user_databases allDatabases))).
Proof.
  intros Hok Hdbs Hall. unfold listCollectionResources. rewrite Hdbs.
  fold (user_databases allDatabases).
  pose proof (map_databases_promises cfg srv (user_databases allDatabases) st Hok) as Hps.
  destruct (map_databases cfg srv (user_databases allDatabases) st) as [promises st1].
  cbn in Hps. subst promises. cbn [fst].
  rewrite (map_ext_in _ (λ d, ((srv_collections srv d).1, Ok (d, visible (collections d))))).
  2: { intros d Hd. apply list_elem_of_In in Hd. rewrite (Hall d Hd). cbn.
       by rewrite parse_all_collections_query. }
  rewrite (promise_all_fulfilled (λ d, (srv_collections srv d).1)
             (λ d, (d, visible (collections d)))).
  cbn. do 2 f_equal. by rewrite flat_map_concat_map, map_map, <- flat_map_concat_map.
Qed.

Lemma getOrCreate_ext (cfg' : Config) databaseName st :
  databaseUrl cfg = databaseUrl cfg' → auth cfg = auth cfg' →
  getOrCreateDatabaseConnection cfg databaseName st
  = getOrCreateDatabaseConnection cfg' databaseName st.
Proof. intros Hurl Hauth. unfold getOrCreateDatabaseConnection. by rewrite Hurl, Hauth. Qed.

Lemma map_databases_ext (cfg' : Config) srv userDatabases : ∀ st,
  databaseUrl cfg = databaseUrl cfg' → auth cfg = auth cfg' →
  map_databases cfg srv userDatabases st = map_databases cfg' srv userDatabases st.
Proof.
  induction userDatabases as [|d rest IH]; intros st Hurl Hauth; [done |].
  cbn. rewrite (getOrCreate_ext cfg') by done.
  destruct (getOrCreateDatabaseConnection cfg' d st) as [conn st1].
  by rewrite IH.
Qed.
End Callbacks.

(** X15: [getCollections] fails only with the failure of the query,
    never on the schema: when the query succeeds it returns, in order,
    the collections whose name does not start with an underscore, with
    their ids, and no name it returns starts with an underscore. *)
Theorem getCollections_outcome (srv : Server) (conn : Database) :
  (∀ all, (srv_collections srv (bound_database conn)).2 = Ok all →
          (getCollections srv conn).2 = Ok (visible all))
  ∧ (∀ e, (srv_collections srv (bound_database conn)).2 = Throw e →
          (getCollections srv conn).2 = Throw e)
  ∧ (∀ collections, (getCollections srv conn).2 = Ok collections →
                    Forall (λ c, Js.startsWith (name c) "_" = false) collections).
Proof.
  rewrite getCollections_visible.
  destruct (srv_collections srv (bound_database conn)).2 as [all|e].
  - split; [by intros ? [= <-] |]. split; [done |].
    intros collections [= <-]. apply visible_names.
  - split; [done |]. split; [by intros ? [= <-] | done].
Qed.

(** X16: in every state the program reaches, when the query for the
    collections succeeds on every database other than [_system], the
    listing returns one resource for each visible collection, database
    by database in the order of the server and collection by collection
    in the order of the database. *)
Theorem listing_resources (cfg : Config) (requests : list (Server * Request))
    (srv : Server) (allDatabases : list string)
    (collections : string → list CollectionInfo) :
  srv_databases srv = Ok allDatabases →
  (∀ d, d ∈ user_databases allDatabases → (srv_collections srv d).2 = Ok (collections d)) →
  (listCollectionResources cfg srv (serve cfg requests initial)).1
  = Ok (Resources
          (flat_map (λ d, map (collection_resource d) (visible (collections d)))
             (user_databases allDatabases))).
Proof. intros Hdbs Hall. by apply listing_returns; [apply reachable_cache_ok | |]. Qed.

Lemma listing_resources_witness :
  srv_databases sample_server_after_drop = Ok ["_system"; "shop"]
  ∧ (listCollectionResources sample_config sample_server_after_drop
       (serve sample_config [] initial)).1
    = Ok (Resources
            (flat_map
               (λ d, map (collection_resource d)
                       (visible [ {| info_id := "101"; info_name := "users" |};
                                  {| info_id := "102"; info_name := "_internal" |} ]))
               (user_databases ["_system"; "shop"]))).
Proof.
  split; [reflexivity |].
  apply (listing_resources sample_config [] sample_server_after_drop ["_system"; "shop"]
           (λ _, [ {| info_id := "101"; info_name := "users" |};
                   {| info_id := "102"; info_name := "_internal" |} ])).
  - reflexivity.
  - intros d Hd. apply list_elem_of_In in Hd. cbn in Hd.
    destruct Hd as [<- | []]. reflexivity.
Defined.

(** X17: whatever a request returns or throws, afterwards the cache
    holds the names it held before and the names the request looked up;
    the listing looks up every database of the server but [_system],
    also when it throws, and nothing when the list of databases fails. *)
Theorem request_fills_cache (cfg : Config) (request : Request) (srv : Server) (st : State) :
  dom (databaseConnections (handle cfg request srv st).2)
  = list_to_set (lookups_of cfg request srv) ∪ dom (databaseConnections st)
  ∧ ("_system" ∉ lookups_of cfg ListResources srv)
  ∧ (∀ allDatabases d, srv_databases srv = Ok allDatabases →
       d ∈ allDatabases → d ≠ "_system" → d ∈ lookups_of cfg ListResources srv)
  ∧ (∀ e, srv_databases srv = Throw e → (handle cfg ListResources srv st).2 = st).
Proof.
  split; [by rewrite handle_lookups, lookups_dom |].
  cbn [lookups_of]. destruct (srv_databases srv) as [allDatabases|e] eqn:Hdbs.
  - split; [| split; [| done]].
    + rewrite list_elem_of_In, filter_In, negb_true_iff, bool_decide_eq_false. tauto.
    + intros ? d [= <-] Hd Hne.
      rewrite list_elem_of_In, filter_In, negb_true_iff, bool_decide_eq_false.
      by rewrite <- list_elem_of_In.
  - split; [apply not_elem_of_nil |]. split; [by intros ? ? [=] |].
    intros e' _. cbn. unfold listCollectionResources. by rewrite Hdbs.
Qed.

(** X18: in every state the program reaches, the read of a collection
    resource returns the count the server gave and the first ten
    documents of the collection, all of them when there are fewer, and
    throws when the count or the query fails. *)
Theorem readCollection_sample (cfg : Config) (requests : list (Server * Request))
    (srv : Server) (href database collection : string) :
  let result :=
    (readCollectionResource cfg href database collection srv
       (serve cfg requests initial)).1 in
  (∀ t1 t2 n docs,
     srv_count srv database collection = (t1, Ok n) →
     srv_documents srv database collection = (t2, Ok docs) →
     result
     = Ok (Contents href "application/json"
             (JObject [("collection", JString collection);
                       ("database", JString database);
                       ("documentCount", JNumber n);
                       ("sampleDocuments", JArray (take 10 docs))]))
     ∧ length (take 10 docs) = (10 `min` length docs)%nat)
  ∧ (∀ e, (srv_count srv database collection).2 = Throw e
          ∨ (srv_documents srv database collection).2 = Throw e →
          ∃ e', result = Throw e').
Proof.
  intros result. subst result. unfold readCollectionResource.
  pose proof (getOrCreate_bound_database cfg database _ (reachable_cache_ok cfg requests))
    as Hbound.
  destruct (getOrCreateDatabaseConnection cfg database (serve cfg requests initial))
    as [conn st1].
  cbn in Hbound. rewrite Hbound. cbn [fst]. split.
  - intros t1 t2 n docs -> ->. split; [done | apply length_take].
  - intros e He.
    destruct (srv_count srv database collection) as [t1 [n|e1]],
             (srv_documents srv database collection) as [t2 [docs|e2]];
      cbn in *; try case_match; eauto.
    by destruct He.
Qed.

(** X19: in every state the program reaches, the read of a document
    resource returns the document the server gave under the URI of the
    request, and throws the failure of the server as it is; either way
    the database is in the cache afterwards. *)
Theorem readDocument_outcome (cfg : Config) (requests : list (Server * Request))
    (srv : Server) (href database collection documentID : string) :
  let st := serve cfg requests initial in
  (readDocumentResource cfg href database collection documentID srv st).1
  = match srv_document srv database collection documentID with
    | Ok document => Ok (Contents href "application/json" document)
    | Throw err => Throw err
    end
  ∧ is_Some (databaseConnections
               (readDocumentResource cfg href database collection documentID srv st).2
             !! database).
Proof.
  intros st. subst st. unfold readDocumentResource.
  pose proof (getOrCreate_bound_database cfg database _ (reachable_cache_ok cfg requests))
    as Hbound.
  pose proof (getOrCreate_bound cfg database (serve cfg requests initial)) as Hcached.
  destruct (getOrCreateDatabaseConnection cfg database (serve cfg requests initial))
    as [conn st1].
  cbn in *. rewrite Hbound. split; [done | by rewrite Hcached].
Qed.


(** X21: the write flag gates [readWriteQuery] and nothing else: two
    servers started with the same URL and the same credentials answer
    every other request alike and leave the same state, whether or not
    either was started with [--enable-write]. *)
Theorem write_flag_gates_only_readWriteQuery (cfg cfg' : Config) (request : Request)
    (srv : Server) (st : State) :
  databaseUrl cfg = databaseUrl cfg' → auth cfg = auth cfg' →
  (∀ args, request ≠ CallTool "readWriteQuery" args) →
  handle cfg request srv st = handle cfg' request srv st.
Proof.
  intros Hurl Hauth Hother.
  destruct request as [|href database collection|href database collection documentID|tool args];
    cbn [handle].
  - unfold listCollectionResources. destruct (srv_databases srv); [| done].
    by rewrite (map_databases_ext cfg cfg').
  - unfold readCollectionResource. by rewrite (getOrCreate_ext cfg cfg').
  - unfold readDocumentResource. by rewrite (getOrCreate_ext cfg cfg').
  - specialize (Hother args). unfold registeredTools.
    destruct (enableWrite cfg), (enableWrite cfg'); cbn;
      repeat (case_decide; [subst tool |]); try done;
      unfold readQuery, readWriteQuery, runQuery, listDatabases, listCollections;
      by rewrite ?(getOrCreate_ext cfg cfg').
Qed.

Lemma write_flag_gates_only_readWriteQuery_witness :
  handle sample_config
    (CallTool "listCollections" {| arg_databaseName := "shop"; arg_aql := "" |})
    sample_server initial
  = handle {| enableWrite := true; databaseUrl := "http://localhost:8529";
              username := None; password := None; auth := None |}
      (CallTool "listCollections" {| arg_databaseName := "shop"; arg_aql := "" |})
      sample_server initial.
Proof.
  apply write_flag_gates_only_readWriteQuery; [reflexivity | reflexivity |].
  intros args. discriminate.
Defined.

(** X22: on a server started with [--enable-write], [readWriteQuery]
    and [readQuery] do the same for the same arguments: [readQuery]
    runs the query text as it is given, reads or writes. *)
Theorem readWriteQuery_as_readQuery (cfg : Config) (args : ToolArguments)
    (srv : Server) (st : State) :
  enableWrite cfg = true →
  handle cfg (CallTool "readWriteQuery" args) srv st
  = handle cfg (CallTool "readQuery" args) srv st.
Proof.
  intros Hwrite. unfold handle, registeredTools. rewrite Hwrite. reflexivity.
Qed.

Lemma readWriteQuery_as_readQuery_witness :
  handle {| enableWrite := true; databaseUrl := "http://localhost:8529";
            username := None; password := None; auth := None |}
    (CallTool "readWriteQuery" {| arg_databaseName := "shop"; arg_aql := "RETURN 1" |})
    sample_server initial
  = handle {| enableWrite := true; databaseUrl := "http://localhost:8529";
              username := None; password := None; auth := None |}
      (CallTool "readQuery" {| arg_databaseName := "shop"; arg_aql := "RETURN 1" |})
      sample_server initial.
Proof. apply readWriteQuery_as_readQuery. reflexivity. Defined.
